(** * Authenticated transport layer of the carrier gateway

    A shallow embedding of the TypeScript sources

      - [src/core/errors.ts]                     (module [Errors])
      - [src/core/ICarrierAuth.ts]               (module [ICarrierAuth])
      - [src/infra/HttpClient.ts]                (module [HttpClient])
      - [src/config.ts]                          (modules [Config], [ConfigTs])
      - [src/carriers/ups/UpsAuthClient.ts]      (module [UpsAuthClient])
      - [src/core/types.ts]                      (module [Types])
      - [src/carriers/ups/ups.types.ts]          (modules [UpsTypes], [UpsRequestTypes])
      - [src/carriers/ups/UpsMapper.ts]          (module [UpsMapper])
      - [src/carriers/ups/UpsRatingOperation.ts] (module [UpsRatingOperation])
      - [src/registry/OperationRegistry.ts]      (module [OperationRegistry])
      - [src/carriers/ups/register.ts]           (module [Register])

    followed by the test doubles of the repository's test suites and by
    the properties proved of the code.

    Asynchronous methods are modelled sequentially: an [await] is the
    point where the awaited computation runs.  Every method is a function
    of an explicit state; what a method throws is a value of type
    [Thrown], and the calls it makes to its collaborators are recorded in
    a trace that is returned next to the result. *)

From Stdlib Require Import ZArith QArith String Ascii List Bool Lia Lqa DecimalString.
Import ListNotations.

Local Open Scope string_scope.
Local Open Scope Z_scope.

Set Implicit Arguments.
Set Warnings "-register-all".

(* ================================================================== *)
(** ** JavaScript values *)

(** Decoded JSON, as axios hands it to the program.  Numbers are exact
    rationals; [NaN] is represented by the absence of a number wherever
    a coercion can produce it.  An object is the list of its own
    properties in insertion order, and [undefined] is the result of
    looking up a property that is not there. *)
Inductive Json : Type :=
| JNull
| JBool (b : bool)
| JNum (q : Q)
| JStr (s : string)
| JArr (items : list Json)
| JObj (props : list (string * Json)).

(** [o[k]] on a list of properties: [None] is [undefined]. *)
Fixpoint lookup {A : Type} (k : string) (props : list (string * A)) : option A :=
  match props with
  | [] => None
  | (k', v) :: rest => if String.eqb k k' then Some v else lookup k rest
  end.

(** [j.k]: property access on a decoded value; anything that is not an
    object has no own properties. *)
Definition get (k : string) (j : Json) : option Json :=
  match j with
  | JObj props => lookup k props
  | _ => None
  end.

(** [{ ...o, k: v }]: the own properties of [o] in order, with [k] set
    last; a key already present keeps its place and takes the new value. *)
Fixpoint set_prop {A : Type} (k : string) (v : A) (props : list (string * A))
  : list (string * A) :=
  match props with
  | [] => [(k, v)]
  | (k', v') :: rest =>
      if String.eqb k k' then (k, v) :: rest else (k', v') :: set_prop k v rest
  end.

(** Template-literal rendering of an integer: [`${n}`]. *)
Definition string_of_Z (n : Z) : string := NilZero.string_of_int (Z.to_int n).

(** The one-character string holding a double quote. *)
Definition dquote : string := String (Ascii.ascii_of_nat 34) EmptyString.

(** [a < b] on JavaScript numbers that are not [NaN]. *)
Definition Qltb (a b : Q) : bool := negb (Qle_bool b a).

(* ================================================================== *)
(** ** src/core/errors.ts and the other values a [catch] can see *)

Module Errors.

(** The classes below [AppError]; the spec calls them the error kinds. *)
Inductive ErrorKind : Type :=
| Validation
| Authentication
| OperationNotFound
| CarrierApi
| RateLimit.

Definition ErrorKind_eqb (a b : ErrorKind) : bool :=
  match a, b with
  | Validation, Validation
  | Authentication, Authentication
  | OperationNotFound, OperationNotFound
  | CarrierApi, CarrierApi
  | RateLimit, RateLimit => true
  | _, _ => false
  end.

(** [error.response] of an axios error. *)
Record AxiosResponse : Type := mkResponse {
  status : Z;
  data : Json
}.

(** Everything that can be thrown and caught in this program:
    - [AppError]: an instance of one of the classes of errors.ts, with
      the fields those classes declare ([httpStatus] and [carrierCode]
      exist on [CarrierApiError] and its subclass only);
    - [AxiosError]: what [axios.isAxiosError] recognises; [response]
      is absent when no response was received;
    - [ZodError]: thrown by [schema.parse];
    - [JsError]: any other instance of [Error];
    - [NonError]: a thrown value that is not an [Error]. *)
Inductive Thrown : Type :=
| AppError (kind : ErrorKind) (code : string) (message : string)
           (httpStatus : option Z) (carrierCode : option string)
           (cause : option Thrown)
| AxiosError (message : string) (response : option AxiosResponse)
| ZodError (message : string)
| JsError (message : string)
| NonError (value : Json).

(** [ErrorOptions]: the [cause] property ([None] is [undefined]). *)
Definition ErrorOptions : Type := option Thrown.

Definition ValidationError (message : string) (options : ErrorOptions) : Thrown :=
  AppError Validation "VALIDATION_ERROR" message None None options.

Definition AuthenticationError (message : string) (options : ErrorOptions) : Thrown :=
  AppError Authentication "AUTHENTICATION_ERROR" message None None options.

Definition OperationNotFoundError (key : string) : Thrown :=
  AppError OperationNotFound "OPERATION_NOT_FOUND"
           ("No operation registered for " ++ dquote ++ key ++ dquote)%string
           None None None.

Definition CarrierApiError (message : string) (httpStatus : Z)
           (carrierCode : option string) (options : ErrorOptions) : Thrown :=
  AppError CarrierApi "CARRIER_API_ERROR" message (Some httpStatus) carrierCode options.

(** [message = "Rate limit exceeded"] is the default parameter; the
    constructor calls [super(message, 429, undefined, options)] and then
    overwrites [code]. *)
Definition RateLimitError (message : option string) (options : ErrorOptions) : Thrown :=
  AppError RateLimit "RATE_LIMIT_ERROR"
           (match message with Some m => m | None => "Rate limit exceeded" end)
           (Some 429) None options.

(** [this.name = this.constructor.name] *)
Definition className (k : ErrorKind) : string :=
  match k with
  | Validation => "ValidationError"
  | Authentication => "AuthenticationError"
  | OperationNotFound => "OperationNotFoundError"
  | CarrierApi => "CarrierApiError"
  | RateLimit => "RateLimitError"
  end.

(** [e instanceof Error] *)
Definition instanceofError (e : Thrown) : bool :=
  match e with
  | NonError _ => false
  | _ => true
  end.

(** [e instanceof CarrierApiError]: the class and its subclass. *)
Definition instanceofCarrierApiError (e : Thrown) : bool :=
  match e with
  | AppError CarrierApi _ _ _ _ _ | AppError RateLimit _ _ _ _ _ => true
  | _ => false
  end.

(** [e instanceof C] for each class [C] of errors.ts. *)
Definition instanceOf (c : ErrorKind) (e : Thrown) : bool :=
  match e with
  | AppError k _ _ _ _ _ =>
      ErrorKind_eqb k c || (ErrorKind_eqb c CarrierApi && ErrorKind_eqb k RateLimit)
  | _ => false
  end.

(** [axios.isAxiosError(e)] *)
Definition isAxiosError (e : Thrown) : bool :=
  match e with
  | AxiosError _ _ => true
  | _ => false
  end.

(** [e.message] of an [Error]. *)
Definition messageOf (e : Thrown) : string :=
  match e with
  | AppError _ _ m _ _ _ => m
  | AxiosError m _ => m
  | ZodError m => m
  | JsError m => m
  | NonError _ => ""
  end.

(** [e.response?.status] *)
Definition responseStatus (e : Thrown) : option Z :=
  match e with
  | AxiosError _ (Some r) => Some (status r)
  | _ => None
  end.

Definition kindOf (e : Thrown) : option ErrorKind :=
  match e with
  | AppError k _ _ _ _ _ => Some k
  | _ => None
  end.

Definition httpStatusOf (e : Thrown) : option Z :=
  match e with
  | AppError _ _ _ s _ _ => s
  | _ => None
  end.

Definition carrierCodeOf (e : Thrown) : option string :=
  match e with
  | AppError _ _ _ _ c _ => c
  | _ => None
  end.

Definition causeOf (e : Thrown) : option Thrown :=
  match e with
  | AppError _ _ _ _ _ c => c
  | _ => None
  end.

Definition codeOf (e : Thrown) : option string :=
  match e with
  | AppError _ c _ _ _ _ => Some c
  | _ => None
  end.

(** [error instanceof Error ? error : undefined] *)
Definition errorOrUndefined (e : Thrown) : option Thrown :=
  if instanceofError e then Some e else None.

End Errors.
Export Errors.

(* ================================================================== *)
(** ** Results, effects and traces *)

(** The outcome of a call: a value, or a throw. *)
Inductive Result (A : Type) : Type :=
| Ok (a : A)
| Throw (e : Thrown).
Arguments Ok {A} a.
Arguments Throw {A} e.

(** A computation over a state [S] that records events of type [E]. *)
Definition Eff (S E A : Type) : Type := S -> Result A * S * list E.

Definition ret {S E A} (a : A) : Eff S E A := fun s => (Ok a, s, []).

Definition throw {S E A} (e : Thrown) : Eff S E A := fun s => (Throw e, s, []).

Definition bind {S E A B} (m : Eff S E A) (k : A -> Eff S E B) : Eff S E B :=
  fun s =>
    match m s with
    | (Ok a, s1, t1) =>
        match k a s1 with
        | (r, s2, t2) => (r, s2, (t1 ++ t2)%list)
        end
    | (Throw e, s1, t1) => (Throw e, s1, t1)
    end.

(** [try { m } catch (e) { h e }] *)
Definition try_catch {S E A} (m : Eff S E A) (h : Thrown -> Eff S E A) : Eff S E A :=
  fun s =>
    match m s with
    | (Ok a, s1, t1) => (Ok a, s1, t1)
    | (Throw e, s1, t1) =>
        match h e s1 with
        | (r, s2, t2) => (r, s2, (t1 ++ t2)%list)
        end
    end.

(** Run a call on a collaborator and record the event [ev] for it. *)
Definition call {S E A} (ev : E) (f : S -> Result A * S) : Eff S E A :=
  fun s => match f s with (r, s1) => (r, s1, [ev]) end.

Notation "x <- m ;; k" := (bind m (fun x => k))
  (at level 61, m at next level, right associativity).
Notation "m ;;; k" := (bind m (fun _ => k))
  (at level 61, right associativity).

Definition result {S E A} (x : Result A * S * list E) : Result A := fst (fst x).
Definition final {S E A} (x : Result A * S * list E) : S := snd (fst x).
Definition trace {S E A} (x : Result A * S * list E) : list E := snd x.

(* ================================================================== *)
(** ** src/core/ICarrierAuth.ts *)

(** The token provider as the executor sees it: two methods over some
    state [S] that the provider and the transport share.  [clearToken]
    returns [void]. *)
Module ICarrierAuth.

Record t (S : Type) : Type := {
  accessToken : S -> Result string * S;
  clearToken : S -> Result unit * S
}.

End ICarrierAuth.

(* ================================================================== *)
(** ** The axios library, as far as the program uses it *)

Definition Headers : Type := list (string * string).

(** [AxiosRequestConfig]: the request envelope. *)
Record AxiosRequestConfig : Type := mkConfig {
  method : option string;
  url : option string;
  body : option Json;
  headers : Headers
}.

Record CreateConfig : Type := {
  baseURL : string;
  timeout : Z
}.

(** An axios instance: [request] answers with a response or throws. *)
Record AxiosInstance (S : Type) : Type := {
  instance_request : AxiosRequestConfig -> S -> Result AxiosResponse * S
}.

(** The default export of axios: [axios.create] and [axios.post]. *)
Record AxiosStatic (S : Type) : Type := {
  create : CreateConfig -> AxiosInstance S;
  post : string -> string -> Headers -> S -> Result AxiosResponse * S
}.

(* ================================================================== *)
(** ** src/infra/HttpClient.ts *)

Module HttpClient.

Record HttpClientOptions (S : Type) : Type := {
  opt_baseURL : string;
  opt_auth : ICarrierAuth.t S;
  opt_timeoutMs : option Z
}.

Record t (S : Type) : Type := {
  client : AxiosInstance S;
  auth : ICarrierAuth.t S
}.

(** The calls the executor makes on its two collaborators. *)
Inductive Call : Type :=
| AccessTokenCall
| ClearTokenCall
| TransportCall (config : AxiosRequestConfig).

Definition new {S} (axios : AxiosStatic S) (options : HttpClientOptions S) : t S :=
  {| auth := opt_auth options;
     client := create axios
       {| baseURL := opt_baseURL options;
          timeout := match opt_timeoutMs options with
                     | Some ms => ms
                     | None => 10000
                     end |} |}.

(** [{ ...config, headers: { ...config.headers, Authorization: `Bearer ${token}` } }] *)
Definition withToken (config : AxiosRequestConfig) (token : string)
  : AxiosRequestConfig :=
  {| method := method config;
     url := url config;
     body := body config;
     headers := set_prop "Authorization" ("Bearer " ++ token)%string (headers config) |}.

Definition executeWithToken {S} (self : t S) (config : AxiosRequestConfig)
           (token : string) : Eff S Call Json :=
  response <- call (TransportCall (withToken config token))
                   (instance_request (client self) (withToken config token)) ;;
  ret (data response).

Definition toStructuredError (error : Thrown) : Thrown :=
  if negb (isAxiosError error) then
    let message :=
      if instanceofError error then messageOf error else "Unknown HTTP error" in
    CarrierApiError message 0 None (errorOrUndefined error)
  else
    match responseStatus error with
    | Some status =>
        if status =? 429 then RateLimitError None (Some error)
        else CarrierApiError ("HTTP " ++ string_of_Z status)%string status None
                             (Some error)
    | None => CarrierApiError (messageOf error) 0 None (Some error)
    end.

(** [axios.isAxiosError(e) && e.response?.status === 401] *)
Definition is401 (e : Thrown) : bool :=
  isAxiosError e &&
  match responseStatus e with
  | Some status => status =? 401
  | None => false
  end.

Definition retryWithFreshToken {S} (self : t S) (config : AxiosRequestConfig)
  : Eff S Call Json :=
  call ClearTokenCall (ICarrierAuth.clearToken (auth self)) ;;;
  freshToken <- call AccessTokenCall (ICarrierAuth.accessToken (auth self)) ;;
  try_catch (executeWithToken self config freshToken)
    (fun retryError =>
       if is401 retryError then
         throw (AuthenticationError "Authentication failed after token refresh"
                                    (Some retryError))
       else throw (toStructuredError retryError)).

Definition request {S} (self : t S) (config : AxiosRequestConfig)
  : Eff S Call Json :=
  token <- call AccessTokenCall (ICarrierAuth.accessToken (auth self)) ;;
  try_catch (executeWithToken self config token)
    (fun error =>
       if is401 error then retryWithFreshToken self config
       else throw (toStructuredError error)).

(** The transport calls among the recorded calls. *)
Definition isTransport (c : Call) : bool :=
  match c with TransportCall _ => true | _ => false end.
Definition isAccessToken (c : Call) : bool :=
  match c with AccessTokenCall => true | _ => false end.
Definition isClearToken (c : Call) : bool :=
  match c with ClearTokenCall => true | _ => false end.

Definition count (p : Call -> bool) (t : list Call) : nat :=
  List.length (List.filter p t).

End HttpClient.

(* ================================================================== *)
(** ** Built-ins of the JavaScript runtime and of the libraries

    Conversions whose definition lies outside the repository are taken
    as they come: every theorem below holds whatever they compute. *)

Record JsRuntime : Type := {
  (** [Number(v)]; [None] is [NaN]. *)
  Number_ : Json -> option Q;
  (** [String(n)] of a number. *)
  String_ : Q -> string;
  (** [Number.parseFloat(s)] and [Number.parseInt(s, 10)]; [None] is [NaN]. *)
  parseFloat : string -> option Q;
  parseInt : string -> option Q;
  (** [Buffer.from(s).toString("base64")] *)
  base64 : string -> string;
  (** The message of the [ZodError] that the named schema raises on a value. *)
  zodMessage : string -> Json -> string
}.

(* ================================================================== *)
(** ** The zod schema combinators the program uses

    A schema is a function from the value found ([None]: [undefined])
    to the parsed value, or to [None] when the value is rejected.
    Objects are parsed field by field; unknown keys are dropped. *)

Module Zod.

Definition Schema (A : Type) : Type := option Json -> option A.

Definition andThen {A B : Type} (x : option A) (k : A -> option B) : option B :=
  match x with
  | Some a => k a
  | None => None
  end.

(** [z.string()] *)
Definition string_ : Schema string :=
  fun v => match v with Some (JStr s) => Some s | _ => None end.

(** [z.number()] *)
Definition number : Schema Q :=
  fun v => match v with Some (JNum q) => Some q | _ => None end.

(** [z.coerce.number()]: [Number(input)], rejected when [NaN]. *)
Definition coerce_number (rt : JsRuntime) : Schema Q :=
  fun v => match v with Some j => Number_ rt j | None => None end.

(** [.positive()], [.nonnegative()] *)
Definition positive (p : Schema Q) : Schema Q :=
  fun v => andThen (p v) (fun q => if Qltb 0 q then Some q else None).
Definition nonnegative (p : Schema Q) : Schema Q :=
  fun v => andThen (p v) (fun q => if Qle_bool 0 q then Some q else None).

(** [.min(n)], [.length(n)] on strings *)
Definition min (n : nat) (p : Schema string) : Schema string :=
  fun v => andThen (p v) (fun s => if Nat.leb n (String.length s) then Some s else None).
Definition length (n : nat) (p : Schema string) : Schema string :=
  fun v => andThen (p v) (fun s => if Nat.eqb (String.length s) n then Some s else None).

(** [.optional()] *)
Definition optional {A : Type} (p : Schema A) : Schema (option A) :=
  fun v => match v with
           | None => Some None
           | Some _ => andThen (p v) (fun a => Some (Some a))
           end.

Fixpoint each {A : Type} (p : Schema A) (items : list Json) : option (list A) :=
  match items with
  | [] => Some []
  | x :: rest =>
      andThen (p (Some x)) (fun a => andThen (each p rest) (fun r => Some (a :: r)))
  end.

(** [z.array(p)] *)
Definition array {A : Type} (p : Schema A) : Schema (list A) :=
  fun v => match v with Some (JArr items) => each p items | _ => None end.

(** [.min(n)] on arrays *)
Definition minItems {A : Type} (n : nat) (p : Schema (list A)) : Schema (list A) :=
  fun v => andThen (p v) (fun l => if Nat.leb n (List.length l) then Some l else None).

(** [z.object({...})]: the value has to be an object; [fields] then
    parses its properties. *)
Definition object {A : Type} (fields : Json -> option A) : Schema A :=
  fun v => match v with Some (JObj props) => fields (JObj props) | _ => None end.

(** The property [k] of the object being parsed, under schema [p]. *)
Definition field {A : Type} (k : string) (p : Schema A) (o : Json) : option A :=
  p (get k o).

(** [z.union([p, q])]: the first schema that accepts the value. *)
Definition union {A B : Type} (p : Schema A) (q : Schema B) : Schema (A + B) :=
  fun v => match p v with
           | Some a => Some (inl a)
           | None => match q v with Some b => Some (inr b) | None => None end
           end.

(** [schema.parse(v)]: the parsed value, or a thrown [ZodError]. *)
Definition parse {S E A : Type} (rt : JsRuntime) (name : string)
           (schema : Schema A) (v : Json) : Eff S E A :=
  match schema (Some v) with
  | Some a => ret a
  | None => throw (ZodError (zodMessage rt name v))
  end.

End Zod.

Notation "x <-? m ; k" := (Zod.andThen m (fun x => k))
  (at level 61, m at next level, right associativity).

(* ================================================================== *)
(** ** src/config.ts *)

Module Config.

Record ups : Type := {
  clientId : string;
  clientSecret : string;
  baseUrl : string
}.

End Config.

(* ================================================================== *)
(** ** src/carriers/ups/UpsAuthClient.ts *)

Module UpsAuthClient.

Record UpsError : Type := { code : string; message : string }.

(** [UpsErrorResponseSchema]; the parsed value is [response.errors]. *)
Definition UpsErrorResponseSchema : Zod.Schema (list UpsError) :=
  Zod.object (fun o =>
    Zod.field "response" (Zod.object (fun r =>
      Zod.field "errors" (Zod.array (Zod.object (fun e =>
        c <-? Zod.field "code" Zod.string_ e ;
        m <-? Zod.field "message" Zod.string_ e ;
        Some {| code := c; message := m |}))) r)) o).

Record TokenResponse : Type := {
  token_type : string;
  issued_at : string;
  client_id : string;
  access_token : string;
  scope : string;
  expires_in : Q;
  refresh_count : Q;
  status_ : string
}.

Definition TokenResponseSchema (rt : JsRuntime) : Zod.Schema TokenResponse :=
  Zod.object (fun o =>
    tt_ <-? Zod.field "token_type" Zod.string_ o ;
    ia <-? Zod.field "issued_at" Zod.string_ o ;
    ci <-? Zod.field "client_id" Zod.string_ o ;
    at_ <-? Zod.field "access_token" Zod.string_ o ;
    sc <-? Zod.field "scope" Zod.string_ o ;
    ei <-? Zod.field "expires_in" (Zod.positive (Zod.coerce_number rt)) o ;
    rc <-? Zod.field "refresh_count" (Zod.nonnegative (Zod.coerce_number rt)) o ;
    st <-? Zod.field "status" Zod.string_ o ;
    Some {| token_type := tt_; issued_at := ia; client_id := ci; access_token := at_;
            scope := sc; expires_in := ei; refresh_count := rc; status_ := st |}).

Definition EXPIRY_BUFFER_S : Q := 60.

(** The fields of an instance. *)
Record t : Type := mk {
  config : Config.ups;
  cachedToken : option string;
  expiresAt : Q
}.

Definition new (config : Config.ups) : t :=
  {| config := config; cachedToken := None; expiresAt := 0 |}.

(** What the provider needs from outside: the clock, axios, and the
    runtime's conversions, over a world [W] that network calls change. *)
Record Env (W : Type) : Type := {
  Date_now : W -> Z;
  axios : AxiosStatic W;
  runtime : JsRuntime
}.

(** A call of [axios.post(url, body, { headers })]. *)
Inductive NetworkCall : Type :=
| Post (url : string) (payload : string) (headers : Headers).

Definition toStructuredError (error : Thrown) : Thrown :=
  match (if isAxiosError error
         then match error with AxiosError _ r => r | _ => None end
         else None) with
  | None =>
      CarrierApiError
        ("UPS OAuth request failed: "
           ++ (if instanceofError error then messageOf error else "Unknown error"))%string
        0 None (errorOrUndefined error)
  | Some response =>
      let status := status response in
      let parsed := UpsErrorResponseSchema (Some (data response)) in
      let firstError :=
        match parsed with
        | Some errors => List.nth_error errors 0
        | None => None
        end in
      let message :=
        match firstError with
        | Some e => message e
        | None => ("UPS OAuth request failed (HTTP " ++ string_of_Z status ++ ")")%string
        end in
      let carrierCode := option_map code firstError in
      if (status =? 401) || (status =? 403) then
        AuthenticationError message (Some error)
      else if status =? 429 then
        RateLimitError (Some message) (Some error)
      else
        CarrierApiError message status carrierCode (Some error)
  end.

Section Methods.

Context {W : Type} (env : Env W).

(** [this.config], [this.cachedToken = v], [this.expiresAt = v], [Date.now()] *)
Definition this : Eff (t * W) NetworkCall t :=
  fun s => (Ok (fst s), s, []).
Definition set_cachedToken (v : option string) : Eff (t * W) NetworkCall unit :=
  fun s => (Ok tt, (mk (config (fst s)) v (expiresAt (fst s)), snd s), []).
Definition set_expiresAt (v : Q) : Eff (t * W) NetworkCall unit :=
  fun s => (Ok tt, (mk (config (fst s)) (cachedToken (fst s)) v, snd s), []).
Definition now : Eff (t * W) NetworkCall Z :=
  fun s => (Ok (Date_now env (snd s)), s, []).

Definition tokenUrl (c : Config.ups) : string :=
  (Config.baseUrl c ++ "/security/v1/oauth/token")%string.

Definition tokenHeaders (c : Config.ups) : Headers :=
  [("Authorization",
    ("Basic " ++ base64 (runtime env)
                   (Config.clientId c ++ ":" ++ Config.clientSecret c))%string);
   ("Content-Type", "application/x-www-form-urlencoded")].

Definition tokenPost (c : Config.ups) : NetworkCall :=
  Post (tokenUrl c) "grant_type=client_credentials" (tokenHeaders c).

Definition authenticate : Eff (t * W) NetworkCall string :=
  self <- this ;;
  try_catch
    (response <- call (tokenPost (config self))
                   (fun s => match post (axios env) (tokenUrl (config self))
                                     "grant_type=client_credentials"
                                     (tokenHeaders (config self)) (snd s) with
                             | (r, w) => (r, (fst s, w))
                             end) ;;
     parsed <- Zod.parse (runtime env) "TokenResponseSchema"
                         (TokenResponseSchema (runtime env)) (data response) ;;
     set_cachedToken (Some (access_token parsed)) ;;;
     time <- now ;;
     set_expiresAt (inject_Z time + (expires_in parsed - EXPIRY_BUFFER_S) * 1000)%Q ;;;
     ret (access_token parsed))
    (fun error => throw (toStructuredError error)).

Definition accessToken : Eff (t * W) NetworkCall string :=
  self <- this ;;
  time <- now ;;
  match cachedToken self with
  | Some token =>
      if Qltb (inject_Z time) (expiresAt self) then ret token else authenticate
  | None => authenticate
  end.

Definition clearToken : Eff (t * W) NetworkCall unit :=
  set_cachedToken None ;;;
  set_expiresAt 0.

(** The validity test of [accessToken]. *)
Definition cacheValid (self : t) (time : Z) : bool :=
  match cachedToken self with
  | Some _ => Qltb (inject_Z time) (expiresAt self)
  | None => false
  end.

End Methods.

(** The provider as an [ICarrierAuth]: the instance, the world, and
    the network calls made so far. *)
Record Session (W : Type) : Type := mkSession {
  provider : t;
  world : W;
  posts : list NetworkCall
}.

Definition lift {W A} (m : Eff (t * W) NetworkCall A) (s : Session W)
  : Result A * Session W :=
  match m (provider s, world s) with
  | (r, (p, w), calls) => (r, mkSession p w (posts s ++ calls)%list)
  end.

Definition asCarrierAuth {W} (env : Env W) : ICarrierAuth.t (Session W) :=
  {| ICarrierAuth.accessToken := lift (accessToken env);
     ICarrierAuth.clearToken := lift clearToken |}.

End UpsAuthClient.

(* ================================================================== *)
(** ** src/core/types.ts *)

Module Types.

Record Address : Type := {
  line1 : string;
  line2 : option string;
  city : string;
  stateCode : string;
  postalCode : string;
  countryCode : string
}.

Definition AddressSchema : Zod.Schema Address :=
  Zod.object (fun o =>
    l1 <-? Zod.field "line1" (Zod.min 1 Zod.string_) o ;
    l2 <-? Zod.field "line2" (Zod.optional Zod.string_) o ;
    ci <-? Zod.field "city" (Zod.min 1 Zod.string_) o ;
    sc <-? Zod.field "stateCode" (Zod.length 2 Zod.string_) o ;
    pc <-? Zod.field "postalCode" (Zod.min 1 Zod.string_) o ;
    cc <-? Zod.field "countryCode" (Zod.length 2 Zod.string_) o ;
    Some {| line1 := l1; line2 := l2; city := ci; stateCode := sc;
            postalCode := pc; countryCode := cc |}).

Record Package : Type := {
  weightLbs : Q;
  lengthIn : Q;
  widthIn : Q;
  heightIn : Q
}.

Definition PackageSchema : Zod.Schema Package :=
  Zod.object (fun o =>
    w <-? Zod.field "weightLbs" (Zod.positive Zod.number) o ;
    l <-? Zod.field "lengthIn" (Zod.positive Zod.number) o ;
    wi <-? Zod.field "widthIn" (Zod.positive Zod.number) o ;
    h <-? Zod.field "heightIn" (Zod.positive Zod.number) o ;
    Some {| weightLbs := w; lengthIn := l; widthIn := wi; heightIn := h |}).

Record RateRequest : Type := {
  origin : Address;
  destination : Address;
  packages : list Package
}.

Definition RateRequestSchema : Zod.Schema RateRequest :=
  Zod.object (fun o =>
    og <-? Zod.field "origin" AddressSchema o ;
    de <-? Zod.field "destination" AddressSchema o ;
    pk <-? Zod.field "packages" (Zod.minItems 1 (Zod.array PackageSchema)) o ;
    Some {| origin := og; destination := de; packages := pk |}).

(** A number-valued property of a quote; [None] is [NaN]. *)
Definition JsNumber : Type := option Q.

(** [estimatedDeliveryDays] and [guaranteedDeliveryDate] are set only
    when the carrier gave them. *)
Record RateQuote : Type := {
  carrier : string;
  serviceCode : string;
  serviceName : string;
  totalChargeUSD : JsNumber;
  estimatedDeliveryDays : option JsNumber;
  guaranteedDeliveryDate : option string
}.

End Types.

(* ================================================================== *)
(** ** src/carriers/ups/ups.types.ts (response side) *)

Module UpsTypes.

Record UpsService : Type := {
  Code : string;
  Description : option string
}.

Definition UpsServiceSchema : Zod.Schema UpsService :=
  Zod.object (fun o =>
    c <-? Zod.field "Code" Zod.string_ o ;
    d <-? Zod.field "Description" (Zod.optional Zod.string_) o ;
    Some {| Code := c; Description := d |}).

Record UpsMonetaryValue : Type := {
  CurrencyCode : string;
  MonetaryValue : string
}.

Definition UpsMonetaryValueSchema : Zod.Schema UpsMonetaryValue :=
  Zod.object (fun o =>
    c <-? Zod.field "CurrencyCode" Zod.string_ o ;
    m <-? Zod.field "MonetaryValue" Zod.string_ o ;
    Some {| CurrencyCode := c; MonetaryValue := m |}).

Record GuaranteedDelivery_ : Type := {
  gd_BusinessDaysInTransit : option string;
  ScheduledDeliveryDate : option string
}.

Record Arrival_ : Type := { Date : option string }.

Record EstimatedArrival_ : Type := {
  ea_BusinessDaysInTransit : option string;
  Arrival : option Arrival_
}.

Record ServiceSummary_ : Type := { EstimatedArrival : option EstimatedArrival_ }.

Record TimeInTransit_ : Type := { ServiceSummary : option ServiceSummary_ }.

Record UpsRatedShipment : Type := {
  Service : UpsService;
  TotalCharges : UpsMonetaryValue;
  GuaranteedDelivery : option GuaranteedDelivery_;
  TimeInTransit : option TimeInTransit_
}.

Definition UpsRatedShipmentSchema : Zod.Schema UpsRatedShipment :=
  Zod.object (fun o =>
    sv <-? Zod.field "Service" UpsServiceSchema o ;
    tc <-? Zod.field "TotalCharges" UpsMonetaryValueSchema o ;
    gd <-? Zod.field "GuaranteedDelivery"
             (Zod.optional (Zod.object (fun g =>
                b <-? Zod.field "BusinessDaysInTransit" (Zod.optional Zod.string_) g ;
                d <-? Zod.field "ScheduledDeliveryDate" (Zod.optional Zod.string_) g ;
                Some {| gd_BusinessDaysInTransit := b; ScheduledDeliveryDate := d |}))) o ;
    ti <-? Zod.field "TimeInTransit"
             (Zod.optional (Zod.object (fun t =>
                ss <-? Zod.field "ServiceSummary"
                         (Zod.optional (Zod.object (fun u =>
                            ea <-? Zod.field "EstimatedArrival"
                                     (Zod.optional (Zod.object (fun e =>
                                        b <-? Zod.field "BusinessDaysInTransit"
                                                (Zod.optional Zod.string_) e ;
                                        a <-? Zod.field "Arrival"
                                                (Zod.optional (Zod.object (fun r =>
                                                   d <-? Zod.field "Date"
                                                           (Zod.optional Zod.string_) r ;
                                                   Some {| Date := d |}))) e ;
                                        Some {| ea_BusinessDaysInTransit := b;
                                                Arrival := a |}))) u ;
                            Some {| EstimatedArrival := ea |}))) t ;
                Some {| ServiceSummary := ss |}))) o ;
    Some {| Service := sv; TotalCharges := tc;
            GuaranteedDelivery := gd; TimeInTransit := ti |}).

Record ResponseStatus_ : Type := {
  rs_Code : string;
  rs_Description : string
}.

(** [RateResponse] of a parsed [UpsRateResponse]. *)
Record UpsRateResponse : Type := {
  ResponseStatus : ResponseStatus_;
  RatedShipment : list UpsRatedShipment
}.

Definition UpsRateResponseSchema : Zod.Schema UpsRateResponse :=
  Zod.object (fun o =>
    Zod.field "RateResponse" (Zod.object (fun r =>
      rs <-? Zod.field "Response" (Zod.object (fun p =>
               Zod.field "ResponseStatus" (Zod.object (fun q =>
                 c <-? Zod.field "Code" Zod.string_ q ;
                 d <-? Zod.field "Description" Zod.string_ q ;
                 Some {| rs_Code := c; rs_Description := d |})) p)) r ;
      sh <-? Zod.field "RatedShipment" (Zod.array UpsRatedShipmentSchema) r ;
      Some {| ResponseStatus := rs; RatedShipment := sh |})) o).

End UpsTypes.

(* ================================================================== *)
(** ** src/carriers/ups/ups.types.ts (request side) *)

Module UpsRequestTypes.

Import UpsTypes.

Record UpsAddress : Type := {
  AddressLine : list string;
  City : string;
  StateProvinceCode : string;
  PostalCode : string;
  CountryCode : string
}.

Definition UpsAddressSchema : Zod.Schema UpsAddress :=
  Zod.object (fun o =>
    al <-? Zod.field "AddressLine" (Zod.array Zod.string_) o ;
    ci <-? Zod.field "City" Zod.string_ o ;
    sp <-? Zod.field "StateProvinceCode" Zod.string_ o ;
    pc <-? Zod.field "PostalCode" Zod.string_ o ;
    cc <-? Zod.field "CountryCode" Zod.string_ o ;
    Some {| AddressLine := al; City := ci; StateProvinceCode := sp;
            PostalCode := pc; CountryCode := cc |}).

Record Dimensions_ : Type := {
  dim_Unit : string;
  Length : string;
  Width : string;
  Height : string
}.

Record PackageWeight_ : Type := {
  weight_Unit : string;
  Weight : string
}.

Record UpsPackage : Type := {
  PackagingType : UpsService;
  Dimensions : Dimensions_;
  PackageWeight : PackageWeight_
}.

(** [z.object({ Code: z.string() })], read as its [Code]. *)
Definition unitSchema : Zod.Schema string :=
  Zod.object (fun u => Zod.field "Code" Zod.string_ u).

Definition UpsPackageSchema : Zod.Schema UpsPackage :=
  Zod.object (fun o =>
    pt <-? Zod.field "PackagingType" (Zod.object (fun p =>
             c <-? Zod.field "Code" Zod.string_ p ;
             d <-? Zod.field "Description" (Zod.optional Zod.string_) p ;
             Some {| Code := c; Description := d |})) o ;
    dm <-? Zod.field "Dimensions" (Zod.object (fun d =>
             u <-? Zod.field "UnitOfMeasurement" unitSchema d ;
             l <-? Zod.field "Length" Zod.string_ d ;
             w <-? Zod.field "Width" Zod.string_ d ;
             h <-? Zod.field "Height" Zod.string_ d ;
             Some {| dim_Unit := u; Length := l; Width := w; Height := h |})) o ;
    pw <-? Zod.field "PackageWeight" (Zod.object (fun p =>
             u <-? Zod.field "UnitOfMeasurement" unitSchema p ;
             w <-? Zod.field "Weight" Zod.string_ p ;
             Some {| weight_Unit := u; Weight := w |})) o ;
    Some {| PackagingType := pt; Dimensions := dm; PackageWeight := pw |}).

Record Party : Type := {
  Name : string;
  ShipperNumber : option string;
  Address : UpsAddress
}.

Record Shipment_ : Type := {
  Shipper : Party;
  ShipTo : Party;
  ShipFrom : Party;
  Service_ : option UpsService;
  NumOfPieces : option string;
  Package : UpsPackage + list UpsPackage
}.

(** [Request.TransactionReference?.CustomerContext] and the shipment. *)
Record UpsRateRequest : Type := {
  TransactionReference : option (option string);
  Shipment : Shipment_
}.

Definition UpsRateRequestSchema : Zod.Schema UpsRateRequest :=
  Zod.object (fun o =>
    Zod.field "RateRequest" (Zod.object (fun r =>
      tr <-? Zod.field "Request" (Zod.object (fun q =>
               Zod.field "TransactionReference"
                 (Zod.optional (Zod.object (fun t =>
                    Zod.field "CustomerContext" (Zod.optional Zod.string_) t))) q)) r ;
      sh <-? Zod.field "Shipment" (Zod.object (fun s =>
               sp <-? Zod.field "Shipper" (Zod.object (fun p =>
                        n <-? Zod.field "Name" Zod.string_ p ;
                        sn <-? Zod.field "ShipperNumber" Zod.string_ p ;
                        a <-? Zod.field "Address" UpsAddressSchema p ;
                        Some {| Name := n; ShipperNumber := Some sn; Address := a |})) s ;
               st <-? Zod.field "ShipTo" (Zod.object (fun p =>
                        n <-? Zod.field "Name" Zod.string_ p ;
                        a <-? Zod.field "Address" UpsAddressSchema p ;
                        Some {| Name := n; ShipperNumber := None; Address := a |})) s ;
               sf <-? Zod.field "ShipFrom" (Zod.object (fun p =>
                        n <-? Zod.field "Name" Zod.string_ p ;
                        a <-? Zod.field "Address" UpsAddressSchema p ;
                        Some {| Name := n; ShipperNumber := None; Address := a |})) s ;
               sv <-? Zod.field "Service" (Zod.optional UpsServiceSchema) s ;
               np <-? Zod.field "NumOfPieces" (Zod.optional Zod.string_) s ;
               pk <-? Zod.field "Package"
                        (Zod.union UpsPackageSchema (Zod.array UpsPackageSchema)) s ;
               Some {| Shipper := sp; ShipTo := st; ShipFrom := sf; Service_ := sv;
                       NumOfPieces := np; Package := pk |})) r ;
      Some {| TransactionReference := tr; Shipment := sh |})) o).

End UpsRequestTypes.

(* ================================================================== *)
(** ** src/carriers/ups/UpsMapper.ts *)

Module UpsMapper.

Import Types UpsTypes.

(** [a ?? b] *)
Definition orElse {A : Type} (a b : option A) : option A :=
  match a with
  | Some _ => a
  | None => b
  end.

(** [x?.f] on an optional object. *)
Definition chain {A B : Type} (x : option A) (f : A -> option B) : option B :=
  match x with
  | Some a => f a
  | None => None
  end.

(** Truthiness of an optional string: [undefined] and [""] are falsy. *)
Definition truthy (s : option string) : bool :=
  match s with
  | Some EmptyString | None => false
  | Some _ => true
  end.

Definition toUpsAddress (address : Address) : Json :=
  let lines :=
    ([line1 address]
       ++ (if truthy (line2 address)
           then match line2 address with Some l => [l] | None => [] end
           else []))%list in
  JObj [("AddressLine", JArr (List.map JStr lines));
        ("City", JStr (city address));
        ("StateProvinceCode", JStr (stateCode address));
        ("PostalCode", JStr (postalCode address));
        ("CountryCode", JStr (countryCode address))].

Definition toUpsPackage (rt : JsRuntime) (pkg : Package) : Json :=
  JObj [("PackagingType", JObj [("Code", JStr "02"); ("Description", JStr "Package")]);
        ("Dimensions",
         JObj [("UnitOfMeasurement", JObj [("Code", JStr "IN")]);
               ("Length", JStr (String_ rt (lengthIn pkg)));
               ("Width", JStr (String_ rt (widthIn pkg)));
               ("Height", JStr (String_ rt (heightIn pkg)))]);
        ("PackageWeight",
         JObj [("UnitOfMeasurement", JObj [("Code", JStr "LBS")]);
               ("Weight", JStr (String_ rt (weightLbs pkg)))])].

Definition toUpsRequest (rt : JsRuntime) (input : RateRequest) : Json :=
  JObj [("RateRequest",
    JObj [("Request", JObj []);
          ("Shipment",
           JObj [("Shipper",
                  JObj [("Name", JStr "Shipper");
                        ("ShipperNumber", JStr "");
                        ("Address", toUpsAddress (origin input))]);
                 ("ShipTo",
                  JObj [("Name", JStr "Recipient");
                        ("Address", toUpsAddress (destination input))]);
                 ("ShipFrom",
                  JObj [("Name", JStr "Sender");
                        ("Address", toUpsAddress (origin input))]);
                 ("NumOfPieces",
                  JStr (string_of_Z (Z.of_nat (List.length (packages input)))));
                 ("Package", JArr (List.map (toUpsPackage rt) (packages input)))])])].

Definition daysInTransit (s : UpsRatedShipment) : option string :=
  orElse (chain (GuaranteedDelivery s) gd_BusinessDaysInTransit)
         (chain (chain (chain (TimeInTransit s) ServiceSummary) EstimatedArrival)
                ea_BusinessDaysInTransit).

Definition deliveryDate (s : UpsRatedShipment) : option string :=
  orElse (chain (GuaranteedDelivery s) ScheduledDeliveryDate)
         (chain (chain (chain (chain (TimeInTransit s) ServiceSummary) EstimatedArrival)
                       Arrival) Date).

Definition toQuote (rt : JsRuntime) (s : UpsRatedShipment) : RateQuote :=
  {| carrier := "UPS";
     serviceCode := Code (Service s);
     serviceName := match Description (Service s) with
                    | Some d => d
                    | None => Code (Service s)
                    end;
     totalChargeUSD := parseFloat rt (MonetaryValue (TotalCharges s));
     estimatedDeliveryDays := option_map (parseInt rt) (daysInTransit s);
     guaranteedDeliveryDate := deliveryDate s |}.

Definition fromUpsResponse (rt : JsRuntime) (shipments : list UpsRatedShipment)
  : list RateQuote :=
  List.map (toQuote rt) shipments.

End UpsMapper.

(* ================================================================== *)
(** ** src/carriers/ups/UpsRatingOperation.ts *)

Module UpsRatingOperation.

Import Types UpsTypes UpsMapper.

Inductive UpsRequestOption : Type :=
| Rate
| Shop
| Ratetimeintransit
| Shoptimeintransit.

Definition optionName (o : UpsRequestOption) : string :=
  match o with
  | Rate => "Rate"
  | Shop => "Shop"
  | Ratetimeintransit => "Ratetimeintransit"
  | Shoptimeintransit => "Shoptimeintransit"
  end.

Record t (S : Type) : Type := {
  http : HttpClient.t S;
  requestOption : UpsRequestOption
}.

(** The constructor; [requestOption] defaults to ["Shop"]. *)
Definition new {S} (http : HttpClient.t S) (requestOption : option UpsRequestOption)
  : t S :=
  {| http := http;
     requestOption := match requestOption with Some o => o | None => Shop end |}.

(** The envelope [fetchRates] hands to the executor. *)
Definition ratingConfig {S} (self : t S) (payload : Json) : AxiosRequestConfig :=
  {| method := Some "POST";
     url := Some ("/api/rating/v2409/" ++ optionName (requestOption self))%string;
     body := Some payload;
     headers := [] |}.

Definition fetchRates {S} (rt : JsRuntime) (self : t S) (payload : Json)
  : Eff S HttpClient.Call UpsRateResponse :=
  try_catch
    (data <- HttpClient.request (http self) (ratingConfig self payload) ;;
     Zod.parse rt "UpsRateResponseSchema" UpsRateResponseSchema data)
    (fun error =>
       if instanceofCarrierApiError error then throw error
       else throw (CarrierApiError "UPS rating request failed" 0 None
                                   (errorOrUndefined error))).

Definition execute {S} (rt : JsRuntime) (self : t S) (input : Json)
  : Eff S HttpClient.Call (list RateQuote) :=
  match RateRequestSchema (Some input) with
  | None => throw (ValidationError (zodMessage rt "RateRequestSchema" input) None)
  | Some parsed =>
      let payload := toUpsRequest rt parsed in
      data <- fetchRates rt self payload ;;
      ret (fromUpsResponse rt (RatedShipment data))
  end.

End UpsRatingOperation.

(* ================================================================== *)
(** ** src/registry/OperationRegistry.ts *)

Module OperationRegistry.

(** [operations]: a [Map] from keys to operations of some type [Op];
    [Map.set] on a key already present replaces its value. *)
Definition t (Op : Type) : Type := list (string * Op).

Definition new {Op : Type} : t Op := [].

Definition register {Op : Type} (key : string) (operation : Op) (self : t Op) : t Op :=
  set_prop key operation self.

Definition resolve {Op : Type} (key : string) (self : t Op) : Result Op :=
  match lookup key self with
  | Some operation => Ok operation
  | None => Throw (OperationNotFoundError key)
  end.

End OperationRegistry.

(* ================================================================== *)
(** ** src/carriers/ups/register.ts *)

Module Register.

Import UpsAuthClient.

(** [Config] of config.ts. *)
Record Config_ : Type := { ups : Config.ups }.

(** The axios module as the executor sees it once it shares its state
    with the provider: a call changes the world and nothing else. *)
Definition sessionAxios {W} (axios : AxiosStatic W) : AxiosStatic (Session W) :=
  {| create := fun c =>
       {| instance_request := fun config s =>
            match instance_request (create axios c) config (world s) with
            | (r, w) => (r, mkSession (provider s) w (posts s))
            end |};
     post := fun u b h s =>
       match post axios u b h (world s) with
       | (r, w) => (r, mkSession (provider s) w (posts s))
       end |}.

(** The executor that [registerUpsCarrier] builds. *)
Definition upsHttp {W} (env : Env W) (config : Config_) : HttpClient.t (Session W) :=
  HttpClient.new (sessionAxios (axios env))
    {| HttpClient.opt_baseURL := Config.baseUrl (ups config);
       HttpClient.opt_auth := asCarrierAuth env;
       HttpClient.opt_timeoutMs := None |}.

(** [registerUpsCarrier(registry, config)]: the registry afterwards, and
    the provider instance that was created for it. *)
Definition registerUpsCarrier {W} (env : Env W)
           (registry : OperationRegistry.t (UpsRatingOperation.t (Session W)))
           (config : Config_)
  : OperationRegistry.t (UpsRatingOperation.t (Session W)) * UpsAuthClient.t :=
  let auth := UpsAuthClient.new (ups config) in
  let http := upsHttp env config in
  (OperationRegistry.register "ups:rating" (UpsRatingOperation.new http None) registry,
   auth).

End Register.

(* ================================================================== *)
(** ** src/config.ts: [ConfigSchema] and [loadConfig] *)

Module ConfigTs.

(** [z.string().url()]; whether a string is a URL is the library's
    decision, [isUrl]. *)
Definition url_ (isUrl : string -> bool) (p : Zod.Schema string) : Zod.Schema string :=
  fun v => Zod.andThen (p v) (fun s => if isUrl s then Some s else None).

Definition ConfigSchema (isUrl : string -> bool) : Zod.Schema Register.Config_ :=
  Zod.object (fun o =>
    u <-? Zod.field "ups" (Zod.object (fun c =>
            ci <-? Zod.field "clientId" (Zod.min 1 Zod.string_) c ;
            cs <-? Zod.field "clientSecret" (Zod.min 1 Zod.string_) c ;
            bu <-? Zod.field "baseUrl" (url_ isUrl Zod.string_) c ;
            Some {| Config.clientId := ci; Config.clientSecret := cs;
                    Config.baseUrl := bu |})) o ;
    Some {| Register.ups := u |}).

(** [{ k: process.env.NAME }]: a variable that is not set leaves the
    property [undefined]. *)
Definition envProp (processEnv : string -> option string) (k name : string)
  : list (string * Json) :=
  match processEnv name with
  | Some v => [(k, JStr v)]
  | None => []
  end.

Definition envObject (processEnv : string -> option string) : Json :=
  JObj [("ups",
         JObj (envProp processEnv "clientId" "UPS_CLIENT_ID"
               ++ envProp processEnv "clientSecret" "UPS_CLIENT_SECRET"
               ++ envProp processEnv "baseUrl" "UPS_BASE_URL")%list)].

Definition loadConfig (rt : JsRuntime) (isUrl : string -> bool)
           (processEnv : string -> option string) : Result Register.Config_ :=
  match ConfigSchema isUrl (Some (envObject processEnv)) with
  | Some config => Ok config
  | None => Throw (ZodError (zodMessage rt "ConfigSchema" (envObject processEnv)))
  end.

End ConfigTs.

(* ================================================================== *)
(** ** Test doubles

    The stubs of tests/infra/HttpClient.test.ts: a token provider that
    hands out a fixed list of tokens, and a transport whose outcomes
    are queued in advance. *)

Module Stub.

Record World : Type := mkWorld {
  tokens : list string;
  callIndex : nat;
  cleared : nat;
  queue : list (Result AxiosResponse)
}.

(** [tokens[callIndex] ?? tokens.at(-1) ?? "tok_default"] *)
Definition tokenAt (ts : list string) (i : nat) : string :=
  match nth_error ts i with
  | Some t => t
  | None => List.last ts "tok_default"
  end.

Definition stubAuth : ICarrierAuth.t World :=
  {| ICarrierAuth.accessToken := fun w =>
       (Ok (tokenAt (tokens w) (callIndex w)),
        mkWorld (tokens w) (Datatypes.S (callIndex w)) (cleared w) (queue w));
     ICarrierAuth.clearToken := fun w =>
       (Ok tt, mkWorld (tokens w) (callIndex w) (Datatypes.S (cleared w)) (queue w)) |}.

(** A mock whose queue is used up resolves to [undefined]; reading
    [response.data] from it throws a [TypeError]. *)
Definition mockRequest : AxiosInstance World :=
  {| instance_request := fun _ w =>
       match queue w with
       | r :: rest => (r, mkWorld (tokens w) (callIndex w) (cleared w) rest)
       | [] => (Throw (JsError "Cannot read properties of undefined (reading 'data')"), w)
       end |}.

Definition axios : AxiosStatic World :=
  {| create := fun _ => mockRequest;
     post := fun _ _ _ w => (Throw (JsError "axios.post is not mocked"), w) |}.

Definition axiosError (status : Z) : Thrown :=
  AxiosError ("Request failed with status " ++ string_of_Z status)%string
             (Some (mkResponse status JNull)).

Definition networkError (message : string) : Thrown := AxiosError message None.

Definition httpClient : HttpClient.t World :=
  HttpClient.new axios
    {| HttpClient.opt_baseURL := "https://api.example.com";
       HttpClient.opt_auth := stubAuth;
       HttpClient.opt_timeoutMs := None |}.

Definition getTest : AxiosRequestConfig :=
  mkConfig (Some "GET") (Some "/test") None [].

Definition okTrue : Json := JObj [("ok", JBool true)].

Definition world (ts : list string) (q : list (Result AxiosResponse)) : World :=
  mkWorld ts 0 0 q.

End Stub.

(* ================================================================== *)
(** ** Test doubles for the token provider

    The mocks of tests/carriers/ups/UpsAuthClient.test.ts: a mocked
    [axios.post] with queued outcomes and a clock that the test sets. *)

Module StubUps.

Record World : Type := mkWorld {
  clock : Z;
  postQueue : list (Result AxiosResponse)
}.

Definition mockedPost (_ _ : string) (_ : Headers) (w : World)
  : Result AxiosResponse * World :=
  match postQueue w with
  | r :: rest => (r, mkWorld (clock w) rest)
  | [] => (Throw (JsError "Cannot read properties of undefined (reading 'data')"), w)
  end.

Definition axios : AxiosStatic World :=
  {| create := fun _ =>
       {| instance_request := fun _ w => (Throw (JsError "request is not mocked"), w) |};
     post := mockedPost |}.

(** Conversions that are right on the inputs the tests use: decimal
    integer strings and numbers. *)
Definition runtime : JsRuntime :=
  {| Number_ := fun j =>
       match j with
       | JNum q => Some q
       | JStr s => option_map (fun i => inject_Z (Z.of_int i)) (NilEmpty.int_of_string s)
       | JNull | JBool false => Some 0%Q
       | JBool true => Some 1%Q
       | _ => None
       end;
     String_ := fun q => string_of_Z (Qnum q / Z.pos (Qden q));
     parseFloat := fun s =>
       option_map (fun i => inject_Z (Z.of_int i)) (NilZero.int_of_string s);
     parseInt := fun s =>
       option_map (fun i => inject_Z (Z.of_int i)) (NilZero.int_of_string s);
     base64 := fun s => s;
     zodMessage := fun name _ => (name ++ ": invalid input")%string |}.

Definition env : UpsAuthClient.Env World :=
  {| UpsAuthClient.Date_now := clock;
     UpsAuthClient.axios := axios;
     UpsAuthClient.runtime := runtime |}.

Definition UPS_CONFIG : Config.ups :=
  {| Config.clientId := "test-client-id";
     Config.clientSecret := "test-client-secret";
     Config.baseUrl := "https://onlinetools.ups.com" |}.

(** [oauthResponse(overrides)] *)
Definition oauthBody (token expires : string) : Json :=
  JObj [("token_type", JStr "Bearer"); ("issued_at", JStr "1718000000000");
        ("client_id", JStr "test-client-id"); ("access_token", JStr token);
        ("scope", JStr "public"); ("expires_in", JStr expires);
        ("refresh_count", JStr "0"); ("status", JStr "approved")].

Definition oauthResponse (token expires : string) : Result AxiosResponse :=
  Ok (mkResponse 200 (oauthBody token expires)).

(** [upsAxiosError(status, code, message)] *)
Definition upsErrorBody (code message : string) : Json :=
  JObj [("response",
         JObj [("errors", JArr [JObj [("code", JStr code); ("message", JStr message)]])])].

Definition upsAxiosError (status : Z) (code message : string) : Thrown :=
  AxiosError "Request failed" (Some (mkResponse status (upsErrorBody code message))).

(** A success body that carries the two consumed fields only. *)
Definition minimalBody : Json :=
  JObj [("access_token", JStr "tok_abc123"); ("expires_in", JNum 14400)].

End StubUps.

(* ================================================================== *)
(** ** Test doubles for the whole carrier

    The mocks of tests/ups-auth.test.ts: [axios.post] and the instance's
    [request] both answer from queues, and the test sets the clock. *)

Module StubCarrier.

Record World : Type := mkWorld {
  clock : Z;
  postQueue : list (Result AxiosResponse);
  requestQueue : list (Result AxiosResponse)
}.

Definition axios : AxiosStatic World :=
  {| create := fun _ =>
       {| instance_request := fun _ w =>
            match requestQueue w with
            | r :: rest => (r, mkWorld (clock w) (postQueue w) rest)
            | [] => (Throw (JsError "Cannot read properties of undefined (reading 'data')"), w)
            end |};
     post := fun _ _ _ w =>
       match postQueue w with
       | r :: rest => (r, mkWorld (clock w) rest (requestQueue w))
       | [] => (Throw (JsError "Cannot read properties of undefined (reading 'data')"), w)
       end |}.

Definition env : UpsAuthClient.Env World :=
  {| UpsAuthClient.Date_now := clock;
     UpsAuthClient.axios := axios;
     UpsAuthClient.runtime := StubUps.runtime |}.

Definition config : Register.Config_ := {| Register.ups := StubUps.UPS_CONFIG |}.

Definition session (p : UpsAuthClient.t) (w : World) : UpsAuthClient.Session World :=
  UpsAuthClient.mkSession p w [].

End StubCarrier.

(* ================================================================== *)
(** * Verified properties *)

(** ** Objects and strings *)

Lemma lookup_set_prop_same {A : Type} (k : string) (v : A) (props : list (string * A)) :
  lookup k (set_prop k v props) = Some v.
Proof.
  induction props as [|[k' v'] rest IH]; simpl.
  - now rewrite String.eqb_refl.
  - destruct (String.eqb k k') eqn:E; simpl.
    + now rewrite String.eqb_refl.
    + now rewrite E.
Qed.

Lemma lookup_set_prop_other {A : Type} (k k0 : string) (v : A)
      (props : list (string * A)) :
  k0 <> k -> lookup k0 (set_prop k v props) = lookup k0 props.
Proof.
  intros Hne. induction props as [|[k' v'] rest IH]; simpl.
  - destruct (String.eqb k0 k) eqn:E; [apply String.eqb_eq in E; contradiction|reflexivity].
  - destruct (String.eqb k k') eqn:E; simpl.
    + apply String.eqb_eq in E. subst k'.
      destruct (String.eqb k0 k) eqn:E0; [apply String.eqb_eq in E0; contradiction|reflexivity].
    + now rewrite IH.
Qed.

(** ** The authenticated request executor *)

Section HttpClientFacts.

Import HttpClient.

Context {S : Type} (self : HttpClient.t S) (config : AxiosRequestConfig).

Local Ltac run :=
  unfold request, retryWithFreshToken, executeWithToken,
    bind, try_catch, call, ret, throw, result, final, trace.

(** What [request] does once its first token is known. *)
Lemma request_unfold (s : S) :
  request self config s =
  match ICarrierAuth.accessToken (auth self) s with
  | (Throw e, s1) => (Throw e, s1, [AccessTokenCall])
  | (Ok token, s1) =>
      match instance_request (client self) (withToken config token) s1 with
      | (Ok response, s2) =>
          (Ok (data response), s2,
           [AccessTokenCall; TransportCall (withToken config token)])
      | (Throw error, s2) =>
          if is401 error then
            match retryWithFreshToken self config s2 with
            | (r, s3, t) =>
                (r, s3, AccessTokenCall :: TransportCall (withToken config token) :: t)
            end
          else
            (Throw (toStructuredError error), s2,
             [AccessTokenCall; TransportCall (withToken config token)])
      end
  end.
Proof.
  run.
  destruct (ICarrierAuth.accessToken (auth self) s) as [[token|e] s1]; [|reflexivity].
  destruct (instance_request (client self) (withToken config token) s1)
    as [[response|error] s2]; [reflexivity|].
  destruct (is401 error); [|reflexivity].
  destruct (ICarrierAuth.clearToken (auth self) s2) as [[[]|e] s3]; [|reflexivity].
  destruct (ICarrierAuth.accessToken (auth self) s3) as [[fresh|e] s4]; [|reflexivity].
  destruct (instance_request (client self) (withToken config fresh) s4)
    as [[response|error2] s5]; [reflexivity|].
  destruct (is401 error2); reflexivity.
Qed.

Lemma retry_unfold (s : S) :
  retryWithFreshToken self config s =
  match ICarrierAuth.clearToken (auth self) s with
  | (Throw e, s1) => (Throw e, s1, [ClearTokenCall])
  | (Ok _, s1) =>
      match ICarrierAuth.accessToken (auth self) s1 with
      | (Throw e, s2) => (Throw e, s2, [ClearTokenCall; AccessTokenCall])
      | (Ok fresh, s2) =>
          match instance_request (client self) (withToken config fresh) s2 with
          | (Ok response, s3) =>
              (Ok (data response), s3,
               [ClearTokenCall; AccessTokenCall; TransportCall (withToken config fresh)])
          | (Throw retryError, s3) =>
              (Throw (if is401 retryError
                      then AuthenticationError "Authentication failed after token refresh"
                                               (Some retryError)
                      else toStructuredError retryError),
               s3,
               [ClearTokenCall; AccessTokenCall; TransportCall (withToken config fresh)])
          end
      end
  end.
Proof.
  run.
  destruct (ICarrierAuth.clearToken (auth self) s) as [[[]|e] s1]; [|reflexivity].
  destruct (ICarrierAuth.accessToken (auth self) s1) as [[fresh|e] s2]; [|reflexivity].
  destruct (instance_request (client self) (withToken config fresh) s2)
    as [[response|error2] s3]; [reflexivity|].
  destruct (is401 error2); reflexivity.
Qed.

Lemma is401_axios (message : string) (response : AxiosResponse) :
  status response = 401 -> is401 (AxiosError message (Some response)) = true.
Proof. intros H. unfold is401. simpl. now rewrite H. Qed.

(** C1.  When the first transport attempt fails with status 401 (and
    the provider's [clearToken] and second [accessToken] return), the
    calls of [request] are, in order: [accessToken], the first transport
    call, [clearToken] once, [accessToken] once, and one more transport
    call whose Authorization header is [Bearer] followed by the newly
    acquired token; when that retried call succeeds, [request] returns
    its decoded body. *)
Theorem request_retries_once_on_401
        (s s1 s2 s3 s4 s5 : S) (token fresh message : string)
        (response401 : AxiosResponse) (retried : Result AxiosResponse) :
  ICarrierAuth.accessToken (auth self) s = (Ok token, s1) ->
  instance_request (client self) (withToken config token) s1
    = (Throw (AxiosError message (Some response401)), s2) ->
  status response401 = 401 ->
  ICarrierAuth.clearToken (auth self) s2 = (Ok tt, s3) ->
  ICarrierAuth.accessToken (auth self) s3 = (Ok fresh, s4) ->
  instance_request (client self) (withToken config fresh) s4 = (retried, s5) ->
  trace (request self config s)
    = [AccessTokenCall; TransportCall (withToken config token);
       ClearTokenCall; AccessTokenCall; TransportCall (withToken config fresh)]
  /\ count isClearToken (trace (request self config s)) = 1%nat
  /\ count isAccessToken (trace (request self config s)) = 2%nat
  /\ count isTransport (trace (request self config s)) = 2%nat
  /\ lookup "Authorization" (headers (withToken config fresh))
     = Some ("Bearer " ++ fresh)%string
  /\ forall response, retried = Ok response ->
       result (request self config s) = Ok (data response).
Proof.
  intros Ha1 Ht1 H401 Hc Ha2 Ht2.
  assert (Htr : trace (request self config s)
    = [AccessTokenCall; TransportCall (withToken config token);
       ClearTokenCall; AccessTokenCall; TransportCall (withToken config fresh)]).
  { rewrite request_unfold, Ha1, Ht1, (is401_axios _ _ H401).
    rewrite retry_unfold, Hc, Ha2, Ht2.
    destruct retried; reflexivity. }
  split; [exact Htr|].
  rewrite Htr.
  repeat split.
  - apply lookup_set_prop_same.
  - intros response ->.
    rewrite request_unfold, Ha1, Ht1, (is401_axios _ _ H401).
    rewrite retry_unfold, Hc, Ha2, Ht2. reflexivity.
Qed.

(** Every execution of [request] makes one of five sequences of calls. *)
Lemma request_trace_cases (s : S) :
  exists token fresh,
    let t1 := TransportCall (withToken config token) in
    let t2 := TransportCall (withToken config fresh) in
    In (trace (request self config s))
       [ [AccessTokenCall];
         [AccessTokenCall; t1];
         [AccessTokenCall; t1; ClearTokenCall];
         [AccessTokenCall; t1; ClearTokenCall; AccessTokenCall];
         [AccessTokenCall; t1; ClearTokenCall; AccessTokenCall; t2] ].
Proof.
  rewrite request_unfold.
  destruct (ICarrierAuth.accessToken (auth self) s) as [[token|e] s1];
    [|exists "", ""; simpl; auto].
  destruct (instance_request (client self) (withToken config token) s1)
    as [[response|error] s2]; [exists token, ""; simpl; auto|].
  destruct (is401 error); [|exists token, ""; simpl; auto].
  rewrite retry_unfold.
  destruct (ICarrierAuth.clearToken (auth self) s2) as [[[]|e] s3];
    [|exists token, ""; simpl; auto].
  destruct (ICarrierAuth.accessToken (auth self) s3) as [[fresh|e] s4];
    [|exists token, ""; simpl; auto].
  exists token, fresh.
  destruct (instance_request (client self) (withToken config fresh) s4)
    as [[response|error2] s5]; simpl; auto 10.
Qed.

(** The whole outcome of [request] when both attempts are answered 401. *)
Lemma request_double_401_outcome
      (s s1 s2 s3 s4 s5 : S) (token fresh : string) (first second : Thrown) :
  ICarrierAuth.accessToken (auth self) s = (Ok token, s1) ->
  instance_request (client self) (withToken config token) s1 = (Throw first, s2) ->
  is401 first = true ->
  ICarrierAuth.clearToken (auth self) s2 = (Ok tt, s3) ->
  ICarrierAuth.accessToken (auth self) s3 = (Ok fresh, s4) ->
  instance_request (client self) (withToken config fresh) s4 = (Throw second, s5) ->
  is401 second = true ->
  request self config s
  = (Throw (AuthenticationError "Authentication failed after token refresh"
                                (Some second)),
     s5,
     [AccessTokenCall; TransportCall (withToken config token);
      ClearTokenCall; AccessTokenCall; TransportCall (withToken config fresh)]).
Proof.
  intros Ha1 Ht1 H1 Hc Ha2 Ht2 H2.
  rewrite request_unfold, Ha1, Ht1, H1.
  now rewrite retry_unfold, Hc, Ha2, Ht2, H2.
Qed.

(** C2 (as the code has it).  No execution of [request] makes more
    than two transport calls; and when the first attempt and the single
    retried attempt both fail with status 401, [request] throws an
    [AuthenticationError] whose message is
    "Authentication failed after token refresh" and whose cause is the
    second failure. *)
Theorem request_double_401_is_authentication_error :
  (forall s : S, (count isTransport (trace (request self config s)) <= 2)%nat)
  /\
  forall (s s1 s2 s3 s4 s5 : S) (token fresh message1 message2 : string)
         (response1 response2 : AxiosResponse),
    ICarrierAuth.accessToken (auth self) s = (Ok token, s1) ->
    instance_request (client self) (withToken config token) s1
      = (Throw (AxiosError message1 (Some response1)), s2) ->
    status response1 = 401 ->
    ICarrierAuth.clearToken (auth self) s2 = (Ok tt, s3) ->
    ICarrierAuth.accessToken (auth self) s3 = (Ok fresh, s4) ->
    instance_request (client self) (withToken config fresh) s4
      = (Throw (AxiosError message2 (Some response2)), s5) ->
    status response2 = 401 ->
    exists thrown,
      result (request self config s) = Throw thrown
      /\ kindOf thrown = Some Authentication
      /\ messageOf thrown = "Authentication failed after token refresh"
      /\ causeOf thrown = Some (AxiosError message2 (Some response2))
      /\ count isTransport (trace (request self config s)) = 2%nat.
Proof.
  split.
  - intros s. destruct (request_trace_cases s) as (token & fresh & H).
    simpl in H.
    repeat (destruct H as [H|H]; [rewrite <- H; unfold count; simpl; lia|]).
    contradiction.
  - intros s s1 s2 s3 s4 s5 token fresh message1 message2 response1 response2
           Ha1 Ht1 H1 Hc Ha2 Ht2 H2.
    rewrite request_unfold, Ha1, Ht1, (is401_axios _ _ H1).
    rewrite retry_unfold, Hc, Ha2, Ht2, (is401_axios _ _ H2).
    eexists. repeat split.
Qed.

(** How [toStructuredError] classifies what the transport threw. *)
Lemma toStructuredError_429 (message : string) (response : AxiosResponse) :
  status response = 429 ->
  toStructuredError (AxiosError message (Some response))
  = RateLimitError None (Some (AxiosError message (Some response))).
Proof. intros H. unfold toStructuredError. simpl. now rewrite H. Qed.

Lemma toStructuredError_status (message : string) (response : AxiosResponse) :
  status response <> 429 ->
  toStructuredError (AxiosError message (Some response))
  = CarrierApiError ("HTTP " ++ string_of_Z (status response))%string
                    (status response) None
                    (Some (AxiosError message (Some response))).
Proof.
  intros H. unfold toStructuredError. simpl.
  destruct (Z.eqb_spec (status response) 429); [contradiction|reflexivity].
Qed.

Lemma toStructuredError_no_response (message : string) :
  toStructuredError (AxiosError message None)
  = CarrierApiError message 0 None (Some (AxiosError message None)).
Proof. reflexivity. Qed.

Lemma toStructuredError_not_axios (error : Thrown) :
  isAxiosError error = false ->
  toStructuredError error
  = CarrierApiError (if instanceofError error then messageOf error
                     else "Unknown HTTP error")
                    0 None (errorOrUndefined error).
Proof. intros H. unfold toStructuredError. now rewrite H. Qed.

(** C5.  A transport failure that the 401 retry path does not handle,
    on the first attempt or on the retried one, is thrown by [request]
    as [toStructuredError] of it, and that is: kind [RateLimit] for
    status 429; kind [CarrierApi] carrying the status for any other
    status; kind [CarrierApi] with status 0 when there is no response;
    and for a non-transport exception kind [CarrierApi] with status 0
    and the original error as cause (the cause is kept for every thrown
    [Error]; a thrown value that is no [Error] leaves it undefined). *)
Theorem request_classifies_transport_failures :
  (forall (s s1 s2 : S) (token : string) (error : Thrown),
      ICarrierAuth.accessToken (auth self) s = (Ok token, s1) ->
      instance_request (client self) (withToken config token) s1 = (Throw error, s2) ->
      is401 error = false ->
      result (request self config s) = Throw (toStructuredError error))
  /\
  (forall (s s1 s2 s3 s4 s5 : S) (token fresh : string) (first error : Thrown),
      ICarrierAuth.accessToken (auth self) s = (Ok token, s1) ->
      instance_request (client self) (withToken config token) s1 = (Throw first, s2) ->
      is401 first = true ->
      ICarrierAuth.clearToken (auth self) s2 = (Ok tt, s3) ->
      ICarrierAuth.accessToken (auth self) s3 = (Ok fresh, s4) ->
      instance_request (client self) (withToken config fresh) s4 = (Throw error, s5) ->
      is401 error = false ->
      result (request self config s) = Throw (toStructuredError error))
  /\
  (forall message response,
      status response = 429 ->
      kindOf (toStructuredError (AxiosError message (Some response))) = Some RateLimit)
  /\
  (forall message response,
      status response <> 429 ->
      kindOf (toStructuredError (AxiosError message (Some response))) = Some CarrierApi
      /\ httpStatusOf (toStructuredError (AxiosError message (Some response)))
         = Some (status response))
  /\
  (forall message,
      kindOf (toStructuredError (AxiosError message None)) = Some CarrierApi
      /\ httpStatusOf (toStructuredError (AxiosError message None)) = Some 0)
  /\
  (forall error,
      isAxiosError error = false ->
      kindOf (toStructuredError error) = Some CarrierApi
      /\ httpStatusOf (toStructuredError error) = Some 0
      /\ causeOf (toStructuredError error) = errorOrUndefined error
      /\ (instanceofError error = true ->
          causeOf (toStructuredError error) = Some error)).
Proof.
  repeat apply conj.
  - intros s s1 s2 token error Ha Ht H.
    now rewrite request_unfold, Ha, Ht, H.
  - intros s s1 s2 s3 s4 s5 token fresh first error Ha1 Ht1 H1 Hc Ha2 Ht2 H2.
    rewrite request_unfold, Ha1, Ht1, H1.
    now rewrite retry_unfold, Hc, Ha2, Ht2, H2.
  - intros message response H. now rewrite toStructuredError_429.
  - intros message response H. now rewrite toStructuredError_status.
  - intros message. now rewrite toStructuredError_no_response.
  - intros error H. rewrite toStructuredError_not_axios by assumption.
    repeat split. intros He. simpl. unfold errorOrUndefined. now rewrite He.
Qed.

End HttpClientFacts.

(** *** Instances on the test doubles *)

Section HttpClientExamples.

Import HttpClient Stub.

(** "clears token and retries once on 401" *)
Lemma request_retries_once_on_401_witness :
  trace (request httpClient getTest
           (world ["tok_stale"; "tok_fresh"]
                  [Throw (axiosError 401); Ok (mkResponse 200 okTrue)]))
  = [AccessTokenCall; TransportCall (withToken getTest "tok_stale");
     ClearTokenCall; AccessTokenCall; TransportCall (withToken getTest "tok_fresh")]
  /\ result (request httpClient getTest
               (world ["tok_stale"; "tok_fresh"]
                      [Throw (axiosError 401); Ok (mkResponse 200 okTrue)]))
     = Ok okTrue.
Proof.
  pose proof (@request_retries_once_on_401 World httpClient getTest
    (world ["tok_stale"; "tok_fresh"]
           [Throw (axiosError 401); Ok (mkResponse 200 okTrue)])
    _ _ _ _ _ "tok_stale" "tok_fresh" _ (mkResponse 401 JNull)
    (Ok (mkResponse 200 okTrue))
    eq_refl eq_refl eq_refl eq_refl eq_refl eq_refl)
    as (Htrace & _ & _ & _ & _ & Hbody).
  split; [exact Htrace|].
  exact (Hbody _ eq_refl).
Defined.

(** "throws AuthenticationError on double 401" *)
Lemma request_double_401_witness :
  exists thrown,
    result (request httpClient getTest
              (world ["tok_stale"; "tok_also_stale"]
                     [Throw (axiosError 401); Throw (axiosError 401)]))
    = Throw thrown
    /\ kindOf thrown = Some Authentication.
Proof.
  destruct (proj2 (@request_double_401_is_authentication_error World httpClient getTest)
    (world ["tok_stale"; "tok_also_stale"]
           [Throw (axiosError 401); Throw (axiosError 401)])
    _ _ _ _ _ "tok_stale" "tok_also_stale" _ _ (mkResponse 401 JNull)
    (mkResponse 401 JNull)
    eq_refl eq_refl eq_refl eq_refl eq_refl eq_refl eq_refl)
    as (thrown & Hr & Hk & _).
  exists thrown. split; assumption.
Defined.

(** The message of the error thrown after two 401 responses starts
    with a capital letter: it is not the all-lower-case sentence. *)
Lemma request_double_401_message_differs :
  exists thrown,
    result (request httpClient getTest
              (world ["tok_stale"; "tok_also_stale"]
                     [Throw (axiosError 401); Throw (axiosError 401)]))
    = Throw thrown
    /\ kindOf thrown = Some Authentication
    /\ messageOf thrown <> "authentication failed after token refresh".
Proof.
  eexists. split; [reflexivity|]. split; [reflexivity|].
  simpl. discriminate.
Qed.

(** "maps other HTTP errors to CarrierApiError" *)
Lemma request_classifies_transport_failures_witness :
  result (request httpClient getTest (world [] [Throw (axiosError 500)]))
  = Throw (toStructuredError (axiosError 500))
  /\ httpStatusOf (toStructuredError (axiosError 500)) = Some 500.
Proof.
  pose proof (@request_classifies_transport_failures World httpClient getTest)
    as (H1 & _ & _ & H4 & _).
  split.
  - apply (H1 (world [] [Throw (axiosError 500)]) _ _ "tok_default" _
              eq_refl eq_refl eq_refl).
  - apply (H4 _ (mkResponse 500 JNull)). vm_compute. discriminate.
Defined.

End HttpClientExamples.

(** ** The token provider *)

Section UpsAuthClientFacts.

Import UpsAuthClient.

Context {W : Type} (env : Env W).

(** The request [authenticate] sends, and what it does with the answer. *)
Definition tokenReply (self : t) (w : W) : Result AxiosResponse * W :=
  post (axios env) (tokenUrl (config self)) "grant_type=client_credentials"
       (tokenHeaders env (config self)) w.

Lemma authenticate_unfold (self : t) (w : W) :
  authenticate env (self, w) =
  match tokenReply self w with
  | (Ok response, w1) =>
      match TokenResponseSchema (runtime env) (Some (data response)) with
      | Some parsed =>
          (Ok (access_token parsed),
           (mk (config self) (Some (access_token parsed))
               (inject_Z (Date_now env w1)
                + (expires_in parsed - EXPIRY_BUFFER_S) * 1000)%Q, w1),
           [tokenPost env (config self)])
      | None =>
          (Throw (toStructuredError
                    (ZodError (zodMessage (runtime env) "TokenResponseSchema"
                                          (data response)))),
           (self, w1), [tokenPost env (config self)])
      end
  | (Throw error, w1) =>
      (Throw (toStructuredError error), (self, w1), [tokenPost env (config self)])
  end.
Proof.
  unfold authenticate, tokenReply, bind, try_catch, call, this, Zod.parse, ret, throw,
    set_cachedToken, set_expiresAt, now.
  cbn [fst snd].
  destruct (post (axios env) _ _ _ w) as [[response|error] w1]; [|reflexivity].
  destruct (TokenResponseSchema (runtime env) (Some (data response))); reflexivity.
Qed.

Lemma accessToken_unfold (self : t) (w : W) :
  accessToken env (self, w) =
  if cacheValid self (Date_now env w) then
    match cachedToken self with
    | Some token => (Ok token, (self, w), [])
    | None => authenticate env (self, w)
    end
  else authenticate env (self, w).
Proof.
  unfold accessToken, cacheValid, bind, this, now, ret. simpl.
  destruct (cachedToken self) as [token|].
  - destruct (Qltb (inject_Z (Date_now env w)) (expiresAt self)).
    + reflexivity.
    + destruct (authenticate env (self, w)) as [[[a|e] s1] t1]; reflexivity.
  - destruct (authenticate env (self, w)) as [[[a|e] s1] t1]; reflexivity.
Qed.

Lemma Qltb_lt (a b : Q) : Qltb a b = true <-> (a < b)%Q.
Proof.
  unfold Qltb. rewrite negb_true_iff. split.
  - intros H. apply Qnot_le_lt. intros Hle.
    apply Qle_bool_iff in Hle. congruence.
  - intros H. destruct (Qle_bool b a) eqn:E; [|reflexivity].
    apply Qle_bool_iff in E. exfalso. exact (Qlt_not_le _ _ H E).
Qed.

Lemma Qltb_ge (a b : Q) : Qltb a b = false <-> (b <= a)%Q.
Proof.
  unfold Qltb. rewrite negb_false_iff. apply Qle_bool_iff.
Qed.

(** Every call of [authenticate] sends exactly one request. *)
Lemma authenticate_trace (self : t) (w : W) :
  trace (authenticate env (self, w)) = [tokenPost env (config self)].
Proof.
  rewrite authenticate_unfold.
  destruct (tokenReply self w) as [[response|error] w1]; [|reflexivity].
  destruct (TokenResponseSchema (runtime env) (Some (data response))); reflexivity.
Qed.

(** C3.  With a cached token and the clock strictly before [expiresAt],
    [accessToken] returns the cached token, makes no network call and
    leaves the provider (and the world) as they were. *)
Theorem accessToken_cache_hit (self : t) (w : W) (token : string) :
  cachedToken self = Some token ->
  (inject_Z (Date_now env w) < expiresAt self)%Q ->
  result (accessToken env (self, w)) = Ok token
  /\ trace (accessToken env (self, w)) = []
  /\ final (accessToken env (self, w)) = (self, w).
Proof.
  intros Hc Hlt.
  rewrite accessToken_unfold. unfold cacheValid. rewrite Hc.
  apply Qltb_lt in Hlt. rewrite Hlt. repeat split.
Qed.

(** C4.  [clearToken] returns without a network call, sets the cached
    token to absent and [expiresAt] to 0, below which no clock reading
    since the epoch lies; the next [accessToken], whatever the clock
    shows then, authenticates: it sends exactly one token request. *)
Theorem clearToken_forces_authentication (self : t) (w : W) :
  result (clearToken (self, w)) = Ok tt
  /\ trace (clearToken (self, w)) = []
  /\ snd (final (clearToken (self, w))) = w
  /\ cachedToken (fst (final (clearToken (self, w)))) = None
  /\ expiresAt (fst (final (clearToken (self, w)))) = 0%Q
  /\ config (fst (final (clearToken (self, w)))) = config self
  /\ (forall time : Z, 0 <= time ->
        Qltb (inject_Z time) (expiresAt (fst (final (clearToken (self, w))))) = false)
  /\ (forall w' : W,
        cacheValid (fst (final (clearToken (self, w)))) (Date_now env w') = false
        /\ accessToken env (fst (final (clearToken (self, w))), w')
           = authenticate env (fst (final (clearToken (self, w))), w')
        /\ trace (accessToken env (fst (final (clearToken (self, w))), w'))
           = [tokenPost env (config self)]).
Proof.
  repeat split.
  - intros time Htime. simpl. apply Qltb_ge.
    rewrite (Zle_Qle 0 time) in Htime. exact Htime.
  - rewrite accessToken_unfold. reflexivity.
  - rewrite accessToken_unfold.
    replace (cacheValid _ _) with false by reflexivity.
    rewrite authenticate_trace. reflexivity.
Qed.

(** The first entry of the carrier's error body, when the body has the
    shape [{ response: { errors: [{ code, message }, ...] } }]. *)
Definition firstError (body : Json) : option UpsError :=
  match UpsErrorResponseSchema (Some body) with
  | Some errors => List.nth_error errors 0
  | None => None
  end.

Definition genericMessage (status : Z) : string :=
  ("UPS OAuth request failed (HTTP " ++ string_of_Z status ++ ")")%string.

Lemma toStructuredError_response (message : string) (response : AxiosResponse) :
  toStructuredError (AxiosError message (Some response)) =
  let text := match firstError (data response) with
              | Some e => UpsAuthClient.message e
              | None => genericMessage (status response)
              end in
  if (status response =? 401) || (status response =? 403) then
    AuthenticationError text (Some (AxiosError message (Some response)))
  else if status response =? 429 then
    RateLimitError (Some text) (Some (AxiosError message (Some response)))
  else
    CarrierApiError text (status response)
                    (option_map code (firstError (data response)))
                    (Some (AxiosError message (Some response))).
Proof. reflexivity. Qed.

Lemma toStructuredError_without_response (error : Thrown) :
  (isAxiosError error = false \/ exists message, error = AxiosError message None) ->
  toStructuredError error =
  CarrierApiError
    ("UPS OAuth request failed: "
       ++ (if instanceofError error then messageOf error else "Unknown error"))%string
    0 None (errorOrUndefined error).
Proof.
  intros [H|[message ->]]; [|reflexivity].
  unfold toStructuredError. now rewrite H.
Qed.

(** C6.  A failed authentication call throws [toStructuredError] of the
    failure.  Without a carrier response that is kind [CarrierApi] with
    status 0.  With a response, the message is the message of the first
    entry of the carrier's error body when there is one, else
    "UPS OAuth request failed (HTTP <status>)"; status 401 or 403 gives
    kind [Authentication], 429 gives [RateLimit], any other status gives
    [CarrierApi] with that status and the first entry's code if any.
    An HTTP 400 with the "Invalid grant_type" body gives status 400,
    carrier code "10400" and message "Invalid grant_type". *)
Theorem authenticate_classifies_failures :
  (forall (self : t) (w w1 : W) (error : Thrown),
      tokenReply self w = (Throw error, w1) ->
      result (authenticate env (self, w)) = Throw (toStructuredError error))
  /\
  (forall error : Thrown,
      (isAxiosError error = false \/ exists message, error = AxiosError message None) ->
      kindOf (toStructuredError error) = Some CarrierApi
      /\ httpStatusOf (toStructuredError error) = Some 0)
  /\
  (forall (message : string) (response : AxiosResponse),
      let thrown := toStructuredError (AxiosError message (Some response)) in
      messageOf thrown
        = match firstError (data response) with
          | Some e => UpsAuthClient.message e
          | None => genericMessage (status response)
          end
      /\ (status response = 401 \/ status response = 403 ->
          kindOf thrown = Some Authentication)
      /\ (status response = 429 -> kindOf thrown = Some RateLimit)
      /\ (status response <> 401 -> status response <> 403 ->
          status response <> 429 ->
          kindOf thrown = Some CarrierApi
          /\ httpStatusOf thrown = Some (status response)
          /\ carrierCodeOf thrown = option_map code (firstError (data response))))
  /\
  (forall message : string,
      let thrown :=
        toStructuredError
          (AxiosError message
             (Some (mkResponse 400 (StubUps.upsErrorBody "10400" "Invalid grant_type")))) in
      httpStatusOf thrown = Some 400
      /\ carrierCodeOf thrown = Some "10400"
      /\ messageOf thrown = "Invalid grant_type").
Proof.
  split; [|split; [|split]].
  - intros self w w1 error H. rewrite authenticate_unfold, H. reflexivity.
  - intros error H. rewrite (toStructuredError_without_response H). split; reflexivity.
  - intros message response thrown. subst thrown.
    rewrite toStructuredError_response. cbv zeta.
    split; [|split; [|split]].
    + destruct ((status response =? 401) || (status response =? 403));
        [reflexivity|].
      destruct (status response =? 429); reflexivity.
    + intros [H|H]; rewrite H; reflexivity.
    + intros H. rewrite H. reflexivity.
    + intros H1 H3 H9.
      destruct (Z.eqb_spec (status response) 401); [contradiction|].
      destruct (Z.eqb_spec (status response) 403); [contradiction|].
      destruct (Z.eqb_spec (status response) 429); [contradiction|].
      repeat split.
  - intros message thrown. subst thrown. repeat split.
Qed.

(** C7.  A successful authentication that returns [expires_in = N] and
    completes at instant [now] (milliseconds) stores
    [expiresAt = now + (N - 60) * 1000].  The stored token is served from
    the cache exactly while the clock is strictly below that instant;
    from that instant on, the next [accessToken] sends exactly one token
    request and returns the newly fetched value. *)
Theorem authenticate_expiry_refresh
        (self : t) (w w1 : W) (response : AxiosResponse) (parsed : TokenResponse) :
  tokenReply self w = (Ok response, w1) ->
  TokenResponseSchema (runtime env) (Some (data response)) = Some parsed ->
  let after := fst (final (authenticate env (self, w))) in
  let expiry := (inject_Z (Date_now env w1) + (expires_in parsed - 60) * 1000)%Q in
  result (authenticate env (self, w)) = Ok (access_token parsed)
  /\ cachedToken after = Some (access_token parsed)
  /\ expiresAt after = expiry
  /\ (forall w2 : W,
        cacheValid after (Date_now env w2) = true
        <-> (inject_Z (Date_now env w2) < expiry)%Q)
  /\ (forall w2 : W,
        (inject_Z (Date_now env w2) < expiry)%Q ->
        accessToken env (after, w2) = (Ok (access_token parsed), (after, w2), []))
  /\ (forall w2 : W,
        (expiry <= inject_Z (Date_now env w2))%Q ->
        trace (accessToken env (after, w2)) = [tokenPost env (config self)]
        /\ forall (response2 : AxiosResponse) (w3 : W) (parsed2 : TokenResponse),
             tokenReply after w2 = (Ok response2, w3) ->
             TokenResponseSchema (runtime env) (Some (data response2)) = Some parsed2 ->
             result (accessToken env (after, w2)) = Ok (access_token parsed2)).
Proof.
  intros Hreply Hparsed after expiry. subst after expiry.
  rewrite authenticate_unfold, Hreply, Hparsed.
  unfold result, final, EXPIRY_BUFFER_S. cbn [fst snd].
  split; [reflexivity|]. split; [reflexivity|]. split; [reflexivity|].
  split; [|split].
  - intros w2. unfold cacheValid. cbn [cachedToken expiresAt]. apply Qltb_lt.
  - intros w2 Hlt. rewrite accessToken_unfold. unfold cacheValid.
    cbn [cachedToken expiresAt]. apply Qltb_lt in Hlt. now rewrite Hlt.
  - intros w2 Hge. rewrite accessToken_unfold. unfold cacheValid.
    cbn [cachedToken expiresAt]. apply Qltb_ge in Hge. rewrite Hge.
    split.
    + rewrite authenticate_trace. reflexivity.
    + intros response2 w3 parsed2 Hreply2 Hparsed2.
      rewrite authenticate_unfold, Hreply2, Hparsed2. reflexivity.
Qed.

(** What [TokenResponseSchema] asks of a body: all eight fields. *)
Record tokenFields (body : Json) (p : TokenResponse) : Prop := {
  has_token_type : get "token_type" body = Some (JStr (token_type p));
  has_issued_at : get "issued_at" body = Some (JStr (issued_at p));
  has_client_id : get "client_id" body = Some (JStr (client_id p));
  has_access_token : get "access_token" body = Some (JStr (access_token p));
  has_scope : get "scope" body = Some (JStr (scope p));
  has_expires_in :
    exists v, get "expires_in" body = Some v
              /\ Number_ (runtime env) v = Some (expires_in p)
              /\ (0 < expires_in p)%Q;
  has_refresh_count :
    exists v, get "refresh_count" body = Some v
              /\ Number_ (runtime env) v = Some (refresh_count p)
              /\ (0 <= refresh_count p)%Q;
  has_status : get "status" body = Some (JStr (status_ p))
}.

Lemma string_field_inv (k : string) (o : Json) (s : string) :
  Zod.field k Zod.string_ o = Some s -> get k o = Some (JStr s).
Proof.
  unfold Zod.field, Zod.string_.
  destruct (get k o) as [[]|]; congruence.
Qed.

Lemma TokenResponseSchema_accepts (body : Json) (p : TokenResponse) :
  tokenFields body p -> TokenResponseSchema (runtime env) (Some body) = Some p.
Proof.
  intros [H1 H2 H3 H4 H5 (ve & H6 & H6n & H6p) (vr & H7 & H7n & H7p) H8].
  destruct body; try discriminate H1.
  unfold TokenResponseSchema, Zod.object, Zod.field, Zod.positive, Zod.nonnegative,
    Zod.coerce_number, Zod.string_, Zod.andThen.
  rewrite H1, H2, H3, H4, H5, H6, H6n, H7, H7n, H8.
  apply Qltb_lt in H6p. rewrite H6p.
  apply Qle_bool_iff in H7p. rewrite H7p.
  destruct p; reflexivity.
Qed.

Lemma TokenResponseSchema_requires (body : Json) (p : TokenResponse) :
  TokenResponseSchema (runtime env) (Some body) = Some p -> tokenFields body p.
Proof.
  unfold TokenResponseSchema, Zod.object.
  destruct body; try discriminate.
  set (o := JObj props).
  destruct (Zod.field "token_type" Zod.string_ o) as [a1|] eqn:E1; [|discriminate].
  destruct (Zod.field "issued_at" Zod.string_ o) as [a2|] eqn:E2; [|discriminate].
  destruct (Zod.field "client_id" Zod.string_ o) as [a3|] eqn:E3; [|discriminate].
  destruct (Zod.field "access_token" Zod.string_ o) as [a4|] eqn:E4; [|discriminate].
  destruct (Zod.field "scope" Zod.string_ o) as [a5|] eqn:E5; [|discriminate].
  destruct (Zod.field "expires_in" (Zod.positive (Zod.coerce_number (runtime env))) o)
    as [a6|] eqn:E6; [|discriminate].
  destruct (Zod.field "refresh_count"
              (Zod.nonnegative (Zod.coerce_number (runtime env))) o)
    as [a7|] eqn:E7; [|discriminate].
  destruct (Zod.field "status" Zod.string_ o) as [a8|] eqn:E8; [|discriminate].
  cbn [Zod.andThen]. intros H. injection H as <-.
  apply string_field_inv in E1, E2, E3, E4, E5, E8.
  constructor; cbn; try assumption.
  - unfold Zod.field, Zod.positive, Zod.coerce_number, Zod.andThen in E6.
    destruct (get "expires_in" o) as [v|] eqn:Ev; [|discriminate].
    destruct (Number_ (runtime env) v) as [n|] eqn:En; [|discriminate].
    destruct (Qltb 0 n) eqn:Ep; [|discriminate].
    injection E6 as <-. exists v.
    split; [exact Ev|]. split; [assumption|]. now apply Qltb_lt.
  - unfold Zod.field, Zod.nonnegative, Zod.coerce_number, Zod.andThen in E7.
    destruct (get "refresh_count" o) as [v|] eqn:Ev; [|discriminate].
    destruct (Number_ (runtime env) v) as [n|] eqn:En; [|discriminate].
    destruct (Qle_bool 0 n) eqn:Ep; [|discriminate].
    injection E7 as <-. exists v.
    split; [exact Ev|]. split; [assumption|]. now apply Qle_bool_iff.
Qed.

(** C8 (as the code has it).  On a cache miss, a success body is
    accepted, its token cached and returned, exactly when it carries all
    eight fields of [TokenResponseSchema] in the right shape: strings
    [token_type], [issued_at], [client_id], [access_token], [scope] and
    [status], an [expires_in] coercible to a positive number and a
    [refresh_count] coercible to a non-negative number; other fields do
    not matter.  Any other success body yields a [CarrierApiError] with
    status 0 and leaves the cached token and [expiresAt] unchanged. *)
Theorem accessToken_accepts_exactly_schema_bodies
        (self : t) (w w1 : W) (response : AxiosResponse) :
  cacheValid self (Date_now env w) = false ->
  tokenReply self w = (Ok response, w1) ->
  (forall p : TokenResponse,
      tokenFields (data response) p ->
      result (accessToken env (self, w)) = Ok (access_token p)
      /\ cachedToken (fst (final (accessToken env (self, w)))) = Some (access_token p))
  /\
  ((forall p : TokenResponse, ~ tokenFields (data response) p) ->
   exists thrown,
     result (accessToken env (self, w)) = Throw thrown
     /\ kindOf thrown = Some CarrierApi
     /\ httpStatusOf thrown = Some 0
     /\ final (accessToken env (self, w)) = (self, w1)).
Proof.
  intros Hmiss Hreply.
  rewrite accessToken_unfold, Hmiss, authenticate_unfold, Hreply.
  split.
  - intros p Hp. rewrite (TokenResponseSchema_accepts Hp). split; reflexivity.
  - intros Hnone.
    destruct (TokenResponseSchema (runtime env) (Some (data response))) as [p|] eqn:E.
    + exfalso. exact (Hnone p (TokenResponseSchema_requires _ E)).
    + eexists. repeat split.
Qed.

End UpsAuthClientFacts.

(** *** Instances on the test doubles *)

Section UpsAuthClientExamples.

Import UpsAuthClient StubUps.

(** "returns cached token without a network call" *)
Lemma accessToken_cache_hit_witness :
  result (accessToken env (mk UPS_CONFIG (Some "tok_abc123") 5000, mkWorld 1000 []))
  = Ok "tok_abc123"
  /\ trace (accessToken env (mk UPS_CONFIG (Some "tok_abc123") 5000, mkWorld 1000 []))
     = []
  /\ final (accessToken env (mk UPS_CONFIG (Some "tok_abc123") 5000, mkWorld 1000 []))
     = (mk UPS_CONFIG (Some "tok_abc123") 5000, mkWorld 1000 []).
Proof.
  apply (accessToken_cache_hit env (mk UPS_CONFIG (Some "tok_abc123") 5000)
                               (mkWorld 1000 [])); reflexivity.
Defined.

(** "re-authenticates after clearToken() is called" *)
Lemma clearToken_forces_authentication_witness :
  Qltb (inject_Z 1000)
       (expiresAt (fst (final (clearToken
          (mk UPS_CONFIG (Some "tok_abc123") 5000, mkWorld 1000 []))))) = false
  /\ trace (accessToken env
              (fst (final (clearToken
                 (mk UPS_CONFIG (Some "tok_abc123") 5000, mkWorld 1000 []))),
               mkWorld 1000 [oauthResponse "tok_new" "14400"]))
     = [tokenPost env UPS_CONFIG].
Proof.
  destruct (clearToken_forces_authentication env
              (mk UPS_CONFIG (Some "tok_abc123") 5000) (mkWorld 1000 []))
    as (_ & _ & _ & _ & _ & _ & Hnever & Hnext).
  split.
  - apply Hnever. lia.
  - apply (Hnext (mkWorld 1000 [oauthResponse "tok_new" "14400"])).
Defined.

(** "throws CarrierApiError on 400 with UPS error details" *)
Lemma authenticate_classifies_failures_witness :
  result (authenticate env
            (new UPS_CONFIG,
             mkWorld 0 [Throw (upsAxiosError 400 "10400" "Invalid grant_type")]))
  = Throw (toStructuredError (upsAxiosError 400 "10400" "Invalid grant_type"))
  /\ kindOf (toStructuredError (upsAxiosError 400 "10400" "Invalid grant_type"))
     = Some CarrierApi.
Proof.
  destruct (authenticate_classifies_failures env) as (Hthrow & _ & Hresp & _).
  split.
  - apply (Hthrow (new UPS_CONFIG)
                  (mkWorld 0 [Throw (upsAxiosError 400 "10400" "Invalid grant_type")])
                  (mkWorld 0 [])).
    reflexivity.
  - apply (Hresp "Request failed"
                 (mkResponse 400 (upsErrorBody "10400" "Invalid grant_type")));
      vm_compute; discriminate.
Defined.

(** "re-authenticates when cached token has expired": a token with
    [expires_in = "61"] fetched at 1 000 000 ms expires at 1 001 000 ms;
    two seconds later the next call fetches "tok_fresh". *)
Lemma authenticate_expiry_refresh_witness :
  expiresAt (fst (final (authenticate env
     (new UPS_CONFIG, mkWorld 1000000 [oauthResponse "tok_abc123" "61"]))))
  = (inject_Z 1000000 + (inject_Z 61 - 60) * 1000)%Q
  /\ result (accessToken env
       (fst (final (authenticate env
          (new UPS_CONFIG, mkWorld 1000000 [oauthResponse "tok_abc123" "61"]))),
        mkWorld 1002000 [oauthResponse "tok_fresh" "14400"]))
     = Ok "tok_fresh".
Proof.
  destruct (authenticate_expiry_refresh env (new UPS_CONFIG)
              (mkWorld 1000000 [oauthResponse "tok_abc123" "61"])
              eq_refl eq_refl)
    as (_ & _ & Hexp & _ & _ & Hrefresh).
  split; [exact Hexp|].
  destruct (Hrefresh (mkWorld 1002000 [oauthResponse "tok_fresh" "14400"]))
    as (_ & Hnew).
  - vm_compute. discriminate.
  - exact (Hnew _ _ _ eq_refl eq_refl).
Defined.

Lemma oauthBody_fields :
  tokenFields env (oauthBody "tok_abc123" "14400")
    {| token_type := "Bearer"; issued_at := "1718000000000";
       client_id := "test-client-id"; access_token := "tok_abc123";
       scope := "public"; expires_in := inject_Z 14400;
       refresh_count := inject_Z 0; status_ := "approved" |}.
Proof.
  constructor; try reflexivity.
  - exists (JStr "14400"). repeat split.
  - exists (JStr "0"). repeat split. discriminate.
Defined.

(** "fetches a token via client credentials on first call" *)
Lemma accessToken_accepts_exactly_schema_bodies_witness :
  result (accessToken env
            (new UPS_CONFIG, mkWorld 0 [oauthResponse "tok_abc123" "14400"]))
  = Ok "tok_abc123".
Proof.
  destruct (accessToken_accepts_exactly_schema_bodies env (new UPS_CONFIG)
              (mkWorld 0 [oauthResponse "tok_abc123" "14400"])
              eq_refl eq_refl) as (Haccept & _).
  exact (proj1 (Haccept _ oauthBody_fields)).
Defined.

(** A success body that has a string [access_token] and a positive
    [expires_in] but none of the other six fields is rejected: nothing
    is cached and a [CarrierApiError] with status 0 is thrown. *)
Lemma accessToken_rejects_minimal_body :
  get "access_token" minimalBody = Some (JStr "tok_abc123")
  /\ get "expires_in" minimalBody = Some (JNum 14400)
  /\ Zod.positive (Zod.coerce_number runtime) (Some (JNum 14400)) = Some 14400%Q
  /\ exists thrown,
       result (accessToken env (new UPS_CONFIG,
                                mkWorld 0 [Ok (mkResponse 200 minimalBody)]))
       = Throw thrown
       /\ kindOf thrown = Some CarrierApi
       /\ httpStatusOf thrown = Some 0
       /\ cachedToken (fst (final (accessToken env
            (new UPS_CONFIG, mkWorld 0 [Ok (mkResponse 200 minimalBody)])))) = None.
Proof.
  repeat split. eexists. repeat split.
Qed.

End UpsAuthClientExamples.

(** ** The rating capability *)

Section UpsRatingOperationFacts.

Import Types UpsTypes UpsMapper UpsRatingOperation.

Context {S : Type} (rt : JsRuntime) (self : UpsRatingOperation.t S).

(** The call [execute] makes on the executor for a validated request. *)
Definition ratingCall (parsed : RateRequest) : Eff S HttpClient.Call Json :=
  HttpClient.request (http self) (ratingConfig self (toUpsRequest rt parsed)).

(** The error that [fetchRates] substitutes for a foreign one. *)
Definition ratingFailure (error : Thrown) : Thrown :=
  CarrierApiError "UPS rating request failed" 0 None (errorOrUndefined error).

Lemma execute_unfold (input : Json) (s : S) :
  execute rt self input s =
  match RateRequestSchema (Some input) with
  | None =>
      (Throw (ValidationError (zodMessage rt "RateRequestSchema" input) None), s, [])
  | Some parsed =>
      match ratingCall parsed s with
      | (Ok data, s1, calls) =>
          match UpsRateResponseSchema (Some data) with
          | Some response =>
              (Ok (fromUpsResponse rt (RatedShipment response)), s1, calls)
          | None =>
              (Throw (ratingFailure
                        (ZodError (zodMessage rt "UpsRateResponseSchema" data))),
               s1, calls)
          end
      | (Throw error, s1, calls) =>
          (Throw (if instanceofCarrierApiError error then error
                  else ratingFailure error), s1, calls)
      end
  end.
Proof.
  unfold execute, ratingCall, ratingFailure.
  destruct (RateRequestSchema (Some input)) as [parsed|]; [|reflexivity].
  unfold fetchRates, bind, try_catch, Zod.parse, ret, throw.
  destruct (HttpClient.request (http self) _ s) as [[[data|error] s1] calls].
  - destruct (UpsRateResponseSchema (Some data)) as [response|]; cbn.
    + now rewrite !app_nil_r.
    + now rewrite !app_nil_r.
  - destruct (instanceofCarrierApiError error); cbn; now rewrite !app_nil_r.
Qed.

(** C9.  An input that [RateRequestSchema] rejects makes [execute] throw
    a [ValidationError]; no call reaches the executor, so neither the
    token provider nor the transport is used, and the state is as
    before. *)
Theorem execute_rejects_malformed_input (input : Json) (s : S) :
  RateRequestSchema (Some input) = None ->
  exists thrown,
    result (execute rt self input s) = Throw thrown
    /\ kindOf thrown = Some Validation
    /\ trace (execute rt self input s) = []
    /\ final (execute rt self input s) = s.
Proof.
  intros H. rewrite execute_unfold, H. eexists. repeat split.
Qed.

(** C10.  For a validated request: an error thrown by the executor that
    is no instance of [CarrierApiError], and likewise the [ZodError] of a
    response that [UpsRateResponseSchema] rejects, is rethrown as a
    [CarrierApiError] with status 0 and message
    "UPS rating request failed" whose cause is the original error; an
    instance of [CarrierApiError] (which includes [RateLimitError]) is
    rethrown unchanged.  In particular the [AuthenticationError] that the
    executor throws after two 401 responses is wrapped, and no error
    leaving [execute] has kind [Authentication]. *)
Theorem execute_wraps_foreign_errors :
  (forall (input : Json) (parsed : RateRequest) (s s1 : S) (error : Thrown)
          (calls : list HttpClient.Call),
      RateRequestSchema (Some input) = Some parsed ->
      ratingCall parsed s = (Throw error, s1, calls) ->
      (instanceofCarrierApiError error = false ->
       result (execute rt self input s) = Throw (ratingFailure error)
       /\ kindOf (ratingFailure error) = Some CarrierApi
       /\ httpStatusOf (ratingFailure error) = Some 0
       /\ messageOf (ratingFailure error) = "UPS rating request failed"
       /\ (instanceofError error = true -> causeOf (ratingFailure error) = Some error))
      /\ (instanceofCarrierApiError error = true ->
          result (execute rt self input s) = Throw error))
  /\
  (forall (input : Json) (parsed : RateRequest) (s s1 : S) (data : Json)
          (calls : list HttpClient.Call),
      RateRequestSchema (Some input) = Some parsed ->
      ratingCall parsed s = (Ok data, s1, calls) ->
      UpsRateResponseSchema (Some data) = None ->
      exists zod,
        zod = ZodError (zodMessage rt "UpsRateResponseSchema" data)
        /\ result (execute rt self input s) = Throw (ratingFailure zod)
        /\ causeOf (ratingFailure zod) = Some zod)
  /\
  (forall (input : Json) (parsed : RateRequest) (s s1 s2 s3 s4 s5 : S)
          (token fresh : string) (first second : Thrown),
      RateRequestSchema (Some input) = Some parsed ->
      let config := ratingConfig self (toUpsRequest rt parsed) in
      ICarrierAuth.accessToken (HttpClient.auth (http self)) s = (Ok token, s1) ->
      instance_request (HttpClient.client (http self))
                       (HttpClient.withToken config token) s1 = (Throw first, s2) ->
      HttpClient.is401 first = true ->
      ICarrierAuth.clearToken (HttpClient.auth (http self)) s2 = (Ok tt, s3) ->
      ICarrierAuth.accessToken (HttpClient.auth (http self)) s3 = (Ok fresh, s4) ->
      instance_request (HttpClient.client (http self))
                       (HttpClient.withToken config fresh) s4 = (Throw second, s5) ->
      HttpClient.is401 second = true ->
      exists thrown,
        result (execute rt self input s) = Throw thrown
        /\ kindOf thrown = Some CarrierApi
        /\ httpStatusOf thrown = Some 0
        /\ messageOf thrown = "UPS rating request failed"
        /\ causeOf thrown
           = Some (AuthenticationError "Authentication failed after token refresh"
                                       (Some second)))
  /\
  (forall (input : Json) (s : S) (thrown : Thrown),
      result (execute rt self input s) = Throw thrown ->
      kindOf thrown <> Some Authentication
      /\ (instanceOf Validation thrown = true
          \/ instanceofCarrierApiError thrown = true)).
Proof.
  split; [|split; [|split]].
  - intros input parsed s s1 error calls Hin Hcall. split.
    + intros Hinst. rewrite execute_unfold, Hin, Hcall, Hinst.
      repeat split. intros He. cbn. unfold errorOrUndefined. now rewrite He.
    + intros Hinst. rewrite execute_unfold, Hin, Hcall, Hinst. reflexivity.
  - intros input parsed s s1 data calls Hin Hcall Hbad.
    eexists. split; [reflexivity|].
    rewrite execute_unfold, Hin, Hcall, Hbad. split; reflexivity.
  - intros input parsed s s1 s2 s3 s4 s5 token fresh first second Hin config
           Ha1 Ht1 H1 Hc Ha2 Ht2 H2.
    subst config. rewrite execute_unfold, Hin. unfold ratingCall.
    rewrite (request_double_401_outcome _ _ _ Ha1 Ht1 H1 Hc Ha2 Ht2 H2).
    eexists. repeat split.
  - intros input s thrown. rewrite execute_unfold.
    destruct (RateRequestSchema (Some input)) as [parsed|].
    + destruct (ratingCall parsed s) as [[[data|error] s1] calls].
      * destruct (UpsRateResponseSchema (Some data)); unfold result; cbn.
        -- discriminate.
        -- intros H. injection H as <-. split; [discriminate|now right].
      * unfold result; cbn.
        destruct (instanceofCarrierApiError error) eqn:E;
          intros H; injection H as <-.
        -- split; [|now right].
           destruct error as [[] ? ? ? ? ?| | | |]; cbn in *; discriminate.
        -- split; [discriminate|now right].
    + unfold result; cbn. intros H. injection H as <-.
      split; [discriminate|now left].
Qed.

End UpsRatingOperationFacts.

(** *** Instances on the test doubles *)

Section UpsRatingOperationExamples.

Import Types UpsTypes UpsMapper UpsRatingOperation Stub.

Definition operation : UpsRatingOperation.t World :=
  UpsRatingOperation.new httpClient None.

(** [VALID_REQUEST] of tests/ups-rating.test.ts *)
Definition VALID_REQUEST : Json :=
  JObj [("origin",
         JObj [("line1", JStr "123 Main St"); ("city", JStr "New York");
               ("stateCode", JStr "NY"); ("postalCode", JStr "10001");
               ("countryCode", JStr "US")]);
        ("destination",
         JObj [("line1", JStr "456 Oak Ave"); ("city", JStr "Los Angeles");
               ("stateCode", JStr "CA"); ("postalCode", JStr "90001");
               ("countryCode", JStr "US")]);
        ("packages",
         JArr [JObj [("weightLbs", JNum 5); ("lengthIn", JNum 10);
                     ("widthIn", JNum 8); ("heightIn", JNum 6)]])].

(** "throws ValidationError for invalid input": [execute({})] *)
Lemma execute_rejects_malformed_input_witness :
  exists thrown,
    result (execute StubUps.runtime operation (JObj []) (world ["tok"] []))
    = Throw thrown
    /\ kindOf thrown = Some Validation
    /\ trace (execute StubUps.runtime operation (JObj []) (world ["tok"] [])) = []
    /\ final (execute StubUps.runtime operation (JObj []) (world ["tok"] []))
       = world ["tok"] [].
Proof.
  apply (execute_rejects_malformed_input StubUps.runtime operation (JObj [])
           (world ["tok"] [])).
  reflexivity.
Defined.

(** A valid request answered by two 401 responses: the executor's
    [AuthenticationError] leaves [execute] wrapped in a
    [CarrierApiError]. *)
Lemma execute_wraps_foreign_errors_witness :
  exists thrown,
    result (execute StubUps.runtime operation VALID_REQUEST
              (world ["tok"] [Throw (axiosError 401); Throw (axiosError 401)]))
    = Throw thrown
    /\ kindOf thrown = Some CarrierApi
    /\ httpStatusOf thrown = Some 0
    /\ messageOf thrown = "UPS rating request failed"
    /\ causeOf thrown
       = Some (AuthenticationError "Authentication failed after token refresh"
                                   (Some (axiosError 401))).
Proof.
  destruct (execute_wraps_foreign_errors StubUps.runtime operation)
    as (_ & _ & Hauth & _).
  destruct (RateRequestSchema (Some VALID_REQUEST)) as [parsed|] eqn:Hin;
    [|discriminate Hin].
  exact (Hauth VALID_REQUEST parsed
               (world ["tok"] [Throw (axiosError 401); Throw (axiosError 401)])
               _ _ _ _ _ "tok" "tok" (axiosError 401) (axiosError 401)
               Hin eq_refl eq_refl eq_refl eq_refl eq_refl eq_refl eq_refl).
Defined.

End UpsRatingOperationExamples.

(* ================================================================== *)
(** * Further properties of the code *)

(** ** HttpClient.ts *)

Section HttpClientMore.

Import HttpClient.

Context {S : Type} (self : HttpClient.t S) (config : AxiosRequestConfig).

(** X1.  Whatever the provider and the transport do, one [request]
    starts by asking for a token, asks for a token at most twice,
    clears the token at most once, makes at most two transport calls,
    and never makes more transport calls than token acquisitions. *)
Theorem request_call_budget (s : S) :
  hd_error (trace (request self config s)) = Some AccessTokenCall
  /\ (count isAccessToken (trace (request self config s)) <= 2)%nat
  /\ (count isClearToken (trace (request self config s)) <= 1)%nat
  /\ (count isTransport (trace (request self config s)) <= 2)%nat
  /\ (count isTransport (trace (request self config s))
      <= count isAccessToken (trace (request self config s)))%nat.
Proof.
  destruct (request_trace_cases self config s) as (token & fresh & H).
  simpl in H.
  repeat (destruct H as [H|H];
          [rewrite <- H; unfold count; simpl; repeat split; lia|]).
  contradiction.
Qed.

(** X2.  [withToken] keeps the method, the URL and the body of the
    envelope and every header other than Authorization; the
    Authorization header of the result is [Bearer <token>], also when
    the envelope brought one of its own. *)
Theorem withToken_keeps_envelope (token : string) :
  method (withToken config token) = method config
  /\ url (withToken config token) = url config
  /\ body (withToken config token) = body config
  /\ lookup "Authorization" (headers (withToken config token))
     = Some ("Bearer " ++ token)%string
  /\ forall name : string,
       name <> "Authorization" ->
       lookup name (headers (withToken config token)) = lookup name (headers config).
Proof.
  repeat split.
  - apply lookup_set_prop_same.
  - intros name Hname. now apply lookup_set_prop_other.
Qed.

(** X3.  What the token provider throws leaves [request] as it is, not
    re-classified: from the first [accessToken] no transport call has
    been made; from [clearToken] or the second [accessToken] exactly
    one has, and none follows. *)
Theorem request_propagates_provider_errors :
  (forall (s s1 : S) (e : Thrown),
      ICarrierAuth.accessToken (auth self) s = (Throw e, s1) ->
      request self config s = (Throw e, s1, [AccessTokenCall]))
  /\
  (forall (s s1 s2 s3 : S) (token : string) (first e : Thrown),
      ICarrierAuth.accessToken (auth self) s = (Ok token, s1) ->
      instance_request (client self) (withToken config token) s1 = (Throw first, s2) ->
      is401 first = true ->
      ICarrierAuth.clearToken (auth self) s2 = (Throw e, s3) ->
      result (request self config s) = Throw e
      /\ count isTransport (trace (request self config s)) = 1%nat)
  /\
  (forall (s s1 s2 s3 s4 : S) (token : string) (first e : Thrown),
      ICarrierAuth.accessToken (auth self) s = (Ok token, s1) ->
      instance_request (client self) (withToken config token) s1 = (Throw first, s2) ->
      is401 first = true ->
      ICarrierAuth.clearToken (auth self) s2 = (Ok tt, s3) ->
      ICarrierAuth.accessToken (auth self) s3 = (Throw e, s4) ->
      result (request self config s) = Throw e
      /\ count isTransport (trace (request self config s)) = 1%nat).
Proof.
  split; [|split].
  - intros s s1 e Ha. now rewrite request_unfold, Ha.
  - intros s s1 s2 s3 token first e Ha Ht H1 Hc.
    rewrite request_unfold, Ha, Ht, H1, retry_unfold, Hc. split; reflexivity.
  - intros s s1 s2 s3 s4 token first e Ha Ht H1 Hc Ha2.
    rewrite request_unfold, Ha, Ht, H1, retry_unfold, Hc, Ha2. split; reflexivity.
Qed.

(** X4.  When the first attempt succeeds, [request] returns the decoded
    body after one token acquisition and one transport call; the token
    is not cleared. *)
Theorem request_first_attempt_success
        (s s1 s2 : S) (token : string) (response : AxiosResponse) :
  ICarrierAuth.accessToken (auth self) s = (Ok token, s1) ->
  instance_request (client self) (withToken config token) s1 = (Ok response, s2) ->
  request self config s
  = (Ok (data response), s2, [AccessTokenCall; TransportCall (withToken config token)]).
Proof.
  intros Ha Ht. now rewrite request_unfold, Ha, Ht.
Qed.

(** X5.  An error that leaves [request] is either one the token provider
    threw, or an [AuthenticationError], or an instance of
    [CarrierApiError]: what the transport throws never escapes as it
    is. *)
Theorem request_throws_structured_errors (s : S) (thrown : Thrown) :
  result (request self config s) = Throw thrown ->
  (exists s0 s1, ICarrierAuth.accessToken (auth self) s0 = (Throw thrown, s1))
  \/ (exists s0 s1, ICarrierAuth.clearToken (auth self) s0 = (Throw thrown, s1))
  \/ instanceOf Authentication thrown = true
  \/ instanceofCarrierApiError thrown = true.
Proof.
  assert (Hstruct : forall e, instanceofCarrierApiError (toStructuredError e) = true).
  { intros e. unfold toStructuredError.
    destruct (isAxiosError e); cbn; [|reflexivity].
    destruct (responseStatus e) as [st|]; [|reflexivity].
    destruct (st =? 429); reflexivity. }
  rewrite request_unfold. unfold result.
  destruct (ICarrierAuth.accessToken (auth self) s) as [[token|e] s1] eqn:Ha.
  - destruct (instance_request (client self) (withToken config token) s1)
      as [[response|error] s2]; cbn; [discriminate|].
    destruct (is401 error).
    + rewrite retry_unfold.
      destruct (ICarrierAuth.clearToken (auth self) s2) as [[[]|e] s3] eqn:Hc.
      * destruct (ICarrierAuth.accessToken (auth self) s3) as [[fresh|e] s4] eqn:Ha2.
        -- destruct (instance_request (client self) (withToken config fresh) s4)
             as [[response|error2] s5]; cbn; [discriminate|].
           intros H. injection H as <-.
           destruct (is401 error2); [now right; right; left|].
           right; right; right. apply Hstruct.
        -- cbn. intros H. injection H as <-. left. now exists s3, s4.
      * cbn. intros H. injection H as <-. right; left. now exists s2, s3.
    + cbn. intros H. injection H as <-. right; right; right. apply Hstruct.
  - cbn. intros H. injection H as <-. left. now exists s, s1.
Qed.

(** X6.  [toStructuredError] always builds an instance of
    [CarrierApiError]; it keeps every thrown [Error] as the cause; its
    result has kind [RateLimit] exactly when its status is 429; and for
    a failure that the retry path does not take, its status is never
    401. *)
Theorem toStructuredError_invariants (error : Thrown) :
  instanceofCarrierApiError (toStructuredError error) = true
  /\ (instanceofError error = true -> causeOf (toStructuredError error) = Some error)
  /\ (kindOf (toStructuredError error) = Some RateLimit
      <-> httpStatusOf (toStructuredError error) = Some 429)
  /\ (is401 error = false -> httpStatusOf (toStructuredError error) <> Some 401).
Proof.
  unfold toStructuredError, is401.
  destruct error as [k c m hs cc ca|m [r|]|m|m|v]; cbn.
  - repeat split; discriminate.
  - destruct (Z.eqb_spec (status r) 429) as [E|E]; cbn.
    + repeat split; intros; try reflexivity. discriminate.
    + repeat split; try discriminate.
      * intros H. injection H as H. contradiction.
      * intros H H1. injection H1 as H1. rewrite H1 in H. discriminate.
  - repeat split; discriminate.
  - repeat split; discriminate.
  - repeat split; discriminate.
  - repeat split; discriminate.
Qed.

End HttpClientMore.

Section HttpClientMoreExamples.

Import HttpClient Stub.

(** A provider that fails on its first call. *)
Definition failingAuth (e : Thrown) : ICarrierAuth.t World :=
  {| ICarrierAuth.accessToken := fun w => (Throw e, w);
     ICarrierAuth.clearToken := fun w => (Ok tt, w) |}.

Lemma request_propagates_provider_errors_witness :
  request {| client := mockRequest;
             auth := failingAuth (AuthenticationError "ClientId is invalid" None) |}
          getTest (world [] [])
  = (Throw (AuthenticationError "ClientId is invalid" None), world [] [],
     [AccessTokenCall]).
Proof.
  apply (proj1 (request_propagates_provider_errors
                  {| client := mockRequest;
                     auth := failingAuth (AuthenticationError "ClientId is invalid" None) |}
                  getTest)).
  reflexivity.
Defined.

(** "injects Authorization header from auth provider" *)
Lemma request_first_attempt_success_witness :
  request httpClient getTest (world ["tok_123"] [Ok (mkResponse 200 okTrue)])
  = (Ok okTrue, mkWorld ["tok_123"] 1 0 [],
     [AccessTokenCall; TransportCall (withToken getTest "tok_123")]).
Proof.
  apply (@request_first_attempt_success World httpClient getTest
           (world ["tok_123"] [Ok (mkResponse 200 okTrue)])
           (mkWorld ["tok_123"] 1 0 [Ok (mkResponse 200 okTrue)])
           (mkWorld ["tok_123"] 1 0 []) "tok_123" (mkResponse 200 okTrue));
    reflexivity.
Defined.

(** "maps 429 to RateLimitError" *)
Lemma request_throws_structured_errors_witness :
  (exists s0 s1, ICarrierAuth.accessToken (auth httpClient) s0
                 = (Throw (RateLimitError None (Some (axiosError 429))), s1))
  \/ (exists s0 s1, ICarrierAuth.clearToken (auth httpClient) s0
                    = (Throw (RateLimitError None (Some (axiosError 429))), s1))
  \/ instanceOf Authentication (RateLimitError None (Some (axiosError 429))) = true
  \/ instanceofCarrierApiError (RateLimitError None (Some (axiosError 429))) = true.
Proof.
  apply (request_throws_structured_errors httpClient getTest
           (world [] [Throw (axiosError 429)])).
  reflexivity.
Defined.

(** "maps network errors to CarrierApiError with status 0" *)
Lemma toStructuredError_invariants_witness :
  causeOf (toStructuredError (networkError "ECONNREFUSED"))
  = Some (networkError "ECONNREFUSED")
  /\ httpStatusOf (toStructuredError (networkError "ECONNREFUSED")) <> Some 401.
Proof.
  destruct (toStructuredError_invariants (networkError "ECONNREFUSED"))
    as (_ & Hcause & _ & Hno401).
  split; [apply Hcause|apply Hno401]; reflexivity.
Defined.

End HttpClientMoreExamples.

(** ** UpsAuthClient.ts *)

Section UpsAuthClientMore.

Import UpsAuthClient.

Context {W : Type} (env : Env W).

(** X7.  One [accessToken] makes no network call on a cache hit and
    exactly one otherwise: a POST of [grant_type=client_credentials] to
    [<baseUrl>/security/v1/oauth/token] with a Basic Authorization header
    built from [clientId:clientSecret] and a form Content-Type. *)
Theorem accessToken_network_calls (self : t) (w : W) :
  (cacheValid self (Date_now env w) = true ->
   trace (accessToken env (self, w)) = [])
  /\
  (cacheValid self (Date_now env w) = false ->
   trace (accessToken env (self, w))
   = [Post (Config.baseUrl (config self) ++ "/security/v1/oauth/token")%string
           "grant_type=client_credentials"
           [("Authorization",
             ("Basic " ++ base64 (runtime env)
                            (Config.clientId (config self) ++ ":"
                               ++ Config.clientSecret (config self)))%string);
            ("Content-Type", "application/x-www-form-urlencoded")]])
  /\ (List.length (trace (accessToken env (self, w))) <= 1)%nat.
Proof.
  rewrite accessToken_unfold.
  destruct (cacheValid self (Date_now env w)) eqn:E.
  - unfold cacheValid in E. destruct (cachedToken self); [|discriminate].
    repeat split; try discriminate. cbn. lia.
  - rewrite authenticate_trace. repeat split; try discriminate. cbn. lia.
Qed.

(** X8.  A failed [accessToken] leaves the provider exactly as it was:
    cached token and expiry are only written after the token response
    has been parsed. *)
Theorem accessToken_failure_keeps_provider (self : t) (w : W) (thrown : Thrown) :
  result (accessToken env (self, w)) = Throw thrown ->
  fst (final (accessToken env (self, w))) = self.
Proof.
  rewrite accessToken_unfold, authenticate_unfold.
  destruct (cacheValid self (Date_now env w)) eqn:E.
  - unfold cacheValid in E. destruct (cachedToken self); discriminate.
  - destruct (tokenReply env self w) as [[response|error] w1]; [|reflexivity].
    destruct (TokenResponseSchema (runtime env) (Some (data response)));
      [discriminate|reflexivity].
Qed.

(** X9.  A token that [accessToken] returns is the token held in the
    cache afterwards; and whatever the outcome, [accessToken] never
    changes the configuration of the provider. *)
Theorem accessToken_returns_cached_token (self : t) (w : W) :
  (forall token : string,
      result (accessToken env (self, w)) = Ok token ->
      cachedToken (fst (final (accessToken env (self, w)))) = Some token)
  /\ config (fst (final (accessToken env (self, w)))) = config self.
Proof.
  rewrite accessToken_unfold, authenticate_unfold.
  destruct (cacheValid self (Date_now env w)) eqn:E.
  - unfold cacheValid in E. destruct (cachedToken self) as [tok|] eqn:Ec;
      [|discriminate].
    split; [|reflexivity]. intros token H. injection H as <-. exact Ec.
  - destruct (tokenReply env self w) as [[response|error] w1].
    + destruct (TokenResponseSchema (runtime env) (Some (data response))).
      * split; [|reflexivity]. intros token H. injection H as <-. reflexivity.
      * split; [discriminate|reflexivity].
    + split; [discriminate|reflexivity].
Qed.

Lemma toStructuredError_kinds (error : Thrown) :
  (kindOf (toStructuredError error) = Some Authentication
   \/ kindOf (toStructuredError error) = Some RateLimit
   \/ kindOf (toStructuredError error) = Some CarrierApi)
  /\ isAxiosError (toStructuredError error) = false.
Proof.
  destruct error as [k c m hs cc ca|m [r|]|m|m|v]; cbn; auto.
  destruct ((status r =? 401) || (status r =? 403)); cbn; auto.
  destruct (status r =? 429); cbn; auto.
Qed.

(** X10.  Every error that leaves [accessToken] is one of the classes
    of errors.ts, of kind [Authentication], [RateLimit] or [CarrierApi];
    an axios error is never thrown as it is. *)
Theorem accessToken_throws_structured_errors (self : t) (w : W) (thrown : Thrown) :
  result (accessToken env (self, w)) = Throw thrown ->
  (kindOf thrown = Some Authentication
   \/ kindOf thrown = Some RateLimit
   \/ kindOf thrown = Some CarrierApi)
  /\ isAxiosError thrown = false.
Proof.
  rewrite accessToken_unfold, authenticate_unfold.
  destruct (cacheValid self (Date_now env w)) eqn:E.
  - unfold cacheValid in E. destruct (cachedToken self); discriminate.
  - destruct (tokenReply env self w) as [[response|error] w1].
    + destruct (TokenResponseSchema (runtime env) (Some (data response)));
        [discriminate|].
      intros H. injection H as <-. apply toStructuredError_kinds.
    + intros H. injection H as <-. apply toStructuredError_kinds.
Qed.

(** X11.  A token whose [expires_in] does not exceed the 60-second
    buffer is already expired when it is stored: as long as the clock
    does not run backwards, it is never served from the cache, and the
    next [accessToken] sends a token request again. *)
Theorem short_lived_token_is_never_reused
        (self : t) (w w1 : W) (response : AxiosResponse) (parsed : TokenResponse) :
  tokenReply env self w = (Ok response, w1) ->
  TokenResponseSchema (runtime env) (Some (data response)) = Some parsed ->
  (expires_in parsed <= 60)%Q ->
  forall w2 : W,
    Date_now env w1 <= Date_now env w2 ->
    cacheValid (fst (final (authenticate env (self, w)))) (Date_now env w2) = false
    /\ trace (accessToken env (fst (final (authenticate env (self, w))), w2))
       = [tokenPost env (config self)].
Proof.
  intros Hreply Hparsed Hshort w2 Hclock.
  assert (Hinvalid :
    cacheValid (fst (final (authenticate env (self, w)))) (Date_now env w2) = false).
  { rewrite authenticate_unfold, Hreply, Hparsed.
    unfold final, cacheValid, EXPIRY_BUFFER_S. cbn [fst snd cachedToken expiresAt].
    apply Qltb_ge. rewrite Zle_Qle in Hclock. lra. }
  split; [exact Hinvalid|].
  rewrite accessToken_unfold, Hinvalid, authenticate_trace.
  rewrite authenticate_unfold, Hreply, Hparsed. reflexivity.
Qed.

(** X12.  [toStructuredError] keeps every thrown [Error] as the cause.
    The carrier's error code is reported only on errors of kind
    [CarrierApi], and is then the code of the first carrier error;
    [Authentication] and [RateLimit] errors carry none. *)
Theorem toStructuredError_cause_and_code (error : Thrown) :
  (instanceofError error = true -> causeOf (toStructuredError error) = Some error)
  /\ (forall code : string,
        carrierCodeOf (toStructuredError error) = Some code ->
        kindOf (toStructuredError error) = Some CarrierApi
        /\ exists message response first,
             error = AxiosError message (Some response)
             /\ firstError (data response) = Some first
             /\ UpsAuthClient.code first = code).
Proof.
  destruct error as [k c m hs cc ca|m [r|]|m|m|v];
    try (split; [reflexivity|cbn; discriminate]).
  - rewrite toStructuredError_response. cbv zeta.
    destruct ((status r =? 401) || (status r =? 403));
      [split; [reflexivity|cbn; discriminate]|].
    destruct (status r =? 429); [split; [reflexivity|cbn; discriminate]|].
    split; [reflexivity|].
    cbn [carrierCodeOf kindOf CarrierApiError].
    intros code0 H. split; [reflexivity|].
    destruct (firstError (data r)) as [first|] eqn:E; [|discriminate].
    cbn in H. injection H as H. now exists m, r, first.
  - split; [discriminate|cbn; discriminate].
Qed.

(** The carrier's error body for a list of errors. *)
Definition errorEntry (e : UpsError) : Json :=
  JObj [("code", JStr (code e)); ("message", JStr (message e))].

Definition errorBody (entries : list Json) : Json :=
  JObj [("response", JObj [("errors", JArr entries)])].

Definition entrySchema : Zod.Schema UpsError :=
  Zod.object (fun e =>
    c <-? Zod.field "code" Zod.string_ e ;
    m <-? Zod.field "message" Zod.string_ e ;
    Some {| code := c; message := m |}).

Lemma UpsErrorResponseSchema_errorBody (entries : list Json) :
  UpsErrorResponseSchema (Some (errorBody entries)) = Zod.each entrySchema entries.
Proof. reflexivity. Qed.

Lemma each_errorEntry (errors : list UpsError) :
  Zod.each entrySchema (List.map errorEntry errors) = Some errors.
Proof.
  induction errors as [|[c m] rest IH]; [reflexivity|].
  cbn [List.map Zod.each]. rewrite IH. reflexivity.
Qed.

Lemma each_rejects (A : Type) (p : Zod.Schema A) (items : list Json) (bad : Json) :
  In bad items -> p (Some bad) = None -> Zod.each p items = None.
Proof.
  intros Hin Hbad. induction items as [|x rest IH]; [contradiction|].
  cbn [Zod.each]. destruct Hin as [->|Hin].
  - now rewrite Hbad.
  - destruct (p (Some x)); [|reflexivity]. cbn. now rewrite (IH Hin).
Qed.

(** X13.  [UpsErrorResponseSchema] reads back any list of carrier errors
    from the body that holds them, so the first error of a response is
    the head of that list: its message becomes the message of the error
    thrown, and an empty list gives the generic message. *)
Theorem UpsErrorResponseSchema_round_trip (errors : list UpsError) :
  UpsErrorResponseSchema (Some (errorBody (List.map errorEntry errors))) = Some errors
  /\ firstError (errorBody (List.map errorEntry errors)) = List.hd_error errors
  /\ forall (text : string) (status : Z),
       messageOf (toStructuredError
                    (AxiosError text
                       (Some (mkResponse status (errorBody (List.map errorEntry errors))))))
       = match errors with
         | first :: _ => message first
         | [] => genericMessage status
         end.
Proof.
  assert (H1 : UpsErrorResponseSchema (Some (errorBody (List.map errorEntry errors)))
               = Some errors).
  { rewrite UpsErrorResponseSchema_errorBody. apply each_errorEntry. }
  assert (H2 : firstError (errorBody (List.map errorEntry errors))
               = List.hd_error errors).
  { unfold firstError. rewrite H1. now destruct errors. }
  split; [exact H1|]. split; [exact H2|].
  intros text status. rewrite toStructuredError_response. cbv zeta.
  cbn [Errors.data Errors.status]. rewrite H2.
  destruct errors as [|first rest]; cbn [List.hd_error];
    destruct ((status =? 401) || (status =? 403)); try reflexivity;
    destruct (status =? 429); reflexivity.
Qed.

(** X14.  One malformed entry anywhere in the carrier's error list makes
    the whole error body unreadable: the message of the error thrown is
    then the generic one, even if the first entry has a message. *)
Theorem malformed_error_entry_gives_generic_message
        (entries : list Json) (bad : Json) (text : string) (status : Z) :
  In bad entries ->
  entrySchema (Some bad) = None ->
  firstError (errorBody entries) = None
  /\ messageOf (toStructuredError
                  (AxiosError text (Some (mkResponse status (errorBody entries)))))
     = genericMessage status.
Proof.
  intros Hin Hbad.
  assert (H : firstError (errorBody entries) = None).
  { unfold firstError. rewrite UpsErrorResponseSchema_errorBody.
    now rewrite (@each_rejects _ entrySchema entries bad Hin Hbad). }
  split; [exact H|].
  rewrite toStructuredError_response. cbv zeta. cbn [Errors.data Errors.status].
  rewrite H.
  destruct ((status =? 401) || (status =? 403)); try reflexivity;
    destruct (status =? 429); reflexivity.
Qed.

End UpsAuthClientMore.

Section UpsAuthClientMoreExamples.

Import UpsAuthClient StubUps.

(** "sends Basic auth header with base64-encoded credentials" (the
    stub runtime leaves the credentials unencoded). *)
Lemma accessToken_network_calls_witness :
  trace (accessToken env (new UPS_CONFIG, mkWorld 0 [oauthResponse "tok_abc123" "14400"]))
  = [Post "https://onlinetools.ups.com/security/v1/oauth/token"
          "grant_type=client_credentials"
          [("Authorization", "Basic test-client-id:test-client-secret");
           ("Content-Type", "application/x-www-form-urlencoded")]].
Proof.
  apply (proj1 (proj2 (accessToken_network_calls env (new UPS_CONFIG)
           (mkWorld 0 [oauthResponse "tok_abc123" "14400"])))).
  reflexivity.
Defined.

(** An expired token stays in the cache when the refresh is refused. *)
Lemma accessToken_failure_keeps_provider_witness :
  fst (final (accessToken env
                (mk UPS_CONFIG (Some "tok_old") 5,
                 mkWorld 10 [Throw (upsAxiosError 401 "10401" "ClientId is invalid")])))
  = mk UPS_CONFIG (Some "tok_old") 5.
Proof.
  apply (accessToken_failure_keeps_provider env (mk UPS_CONFIG (Some "tok_old") 5)
           (mkWorld 10 [Throw (upsAxiosError 401 "10401" "ClientId is invalid")])
           (thrown := toStructuredError (upsAxiosError 401 "10401" "ClientId is invalid"))).
  reflexivity.
Defined.

Lemma accessToken_returns_cached_token_witness :
  cachedToken (fst (final (accessToken env
     (new UPS_CONFIG, mkWorld 0 [oauthResponse "tok_abc123" "14400"]))))
  = Some "tok_abc123".
Proof.
  apply (proj1 (accessToken_returns_cached_token env (new UPS_CONFIG)
                  (mkWorld 0 [oauthResponse "tok_abc123" "14400"]))).
  reflexivity.
Defined.

(** "throws AuthenticationError on 401 with UPS error message" *)
Lemma accessToken_throws_structured_errors_witness :
  (kindOf (toStructuredError (upsAxiosError 401 "10401" "ClientId is invalid"))
   = Some Authentication
   \/ kindOf (toStructuredError (upsAxiosError 401 "10401" "ClientId is invalid"))
      = Some RateLimit
   \/ kindOf (toStructuredError (upsAxiosError 401 "10401" "ClientId is invalid"))
      = Some CarrierApi)
  /\ isAxiosError (toStructuredError (upsAxiosError 401 "10401" "ClientId is invalid"))
     = false.
Proof.
  apply (accessToken_throws_structured_errors env (new UPS_CONFIG)
           (mkWorld 0 [Throw (upsAxiosError 401 "10401" "ClientId is invalid")])).
  reflexivity.
Defined.

(** A token with [expires_in = "30"] is fetched again by the very next
    call, even at the same instant. *)
Lemma short_lived_token_is_never_reused_witness :
  cacheValid (fst (final (authenticate env
                (new UPS_CONFIG, mkWorld 1000 [oauthResponse "tok_abc123" "30"]))))
             1000 = false
  /\ trace (accessToken env
              (fst (final (authenticate env
                 (new UPS_CONFIG, mkWorld 1000 [oauthResponse "tok_abc123" "30"]))),
               mkWorld 1000 []))
     = [tokenPost env UPS_CONFIG].
Proof.
  pose proof (@short_lived_token_is_never_reused World env (new UPS_CONFIG)
                (mkWorld 1000 [oauthResponse "tok_abc123" "30"])
                _ _ _ eq_refl eq_refl) as H.
  apply (H ltac:(vm_compute; discriminate) (mkWorld 1000 [])).
  cbn. lia.
Defined.

Lemma toStructuredError_cause_and_code_witness :
  kindOf (toStructuredError (upsAxiosError 400 "10400" "Invalid grant_type"))
  = Some CarrierApi.
Proof.
  apply (proj2 (toStructuredError_cause_and_code
                  (upsAxiosError 400 "10400" "Invalid grant_type")) "10400").
  reflexivity.
Defined.

(** The second entry has no [code]: the first entry's message is lost. *)
Lemma malformed_error_entry_gives_generic_message_witness :
  messageOf (toStructuredError
     (AxiosError "Request failed"
        (Some (mkResponse 500
           (errorBody [errorEntry {| code := "10500"; message := "Internal error" |};
                       JObj [("message", JStr "no code here")]])))))
  = "UPS OAuth request failed (HTTP 500)".
Proof.
  apply (malformed_error_entry_gives_generic_message
           [errorEntry {| code := "10500"; message := "Internal error" |};
            JObj [("message", JStr "no code here")]]
           (JObj [("message", JStr "no code here")]) "Request failed" 500).
  - right. left. reflexivity.
  - reflexivity.
Defined.

End UpsAuthClientMoreExamples.

(** ** The executor on top of the UPS token provider (register.ts) *)

Section UpsHttpFacts.

Import UpsAuthClient HttpClient Register.

Context {W : Type} (env : Env W) (cfg : Config_).

(** The transport of the executor built by [registerUpsCarrier]. *)
Definition upsTransport (envelope : AxiosRequestConfig) (w : W)
  : Result AxiosResponse * W :=
  instance_request
    (create (axios env)
            {| baseURL := Config.baseUrl (ups cfg); timeout := 10000 |})
    envelope w.

Lemma session_accessToken (s : Session W) :
  ICarrierAuth.accessToken (auth (upsHttp env cfg)) s
  = match accessToken env (provider s, world s) with
    | (r, (p, w), calls) => (r, mkSession p w (posts s ++ calls)%list)
    end.
Proof. reflexivity. Qed.

Lemma session_clearToken (s : Session W) :
  ICarrierAuth.clearToken (auth (upsHttp env cfg)) s
  = (Ok tt,
     mkSession (mk (UpsAuthClient.config (provider s)) None 0) (world s) (posts s ++ [])%list).
Proof. reflexivity. Qed.

Lemma session_transport (envelope : AxiosRequestConfig) (s : Session W) :
  instance_request (client (upsHttp env cfg)) envelope s
  = match upsTransport envelope (world s) with
    | (r, w) => (r, mkSession (provider s) w (posts s))
    end.
Proof. reflexivity. Qed.

Lemma accessToken_hit (self : UpsAuthClient.t) (w : W) (token : string) :
  cachedToken self = Some token ->
  (inject_Z (Date_now env w) < expiresAt self)%Q ->
  accessToken env (self, w) = (Ok token, (self, w), []).
Proof.
  intros Hc Hlt. rewrite accessToken_unfold. unfold cacheValid.
  rewrite Hc. apply Qltb_lt in Hlt. now rewrite Hlt.
Qed.

(** X15.  With a valid token in the provider's cache, a request that the
    carrier accepts goes out once with that token: no token request is
    sent, and the provider is left as it was. *)
Theorem cached_token_is_used_without_token_request
        (s : Session W) (envelope : AxiosRequestConfig) (token : string)
        (response : AxiosResponse) (w1 : W) :
  cachedToken (provider s) = Some token ->
  (inject_Z (Date_now env (world s)) < expiresAt (provider s))%Q ->
  upsTransport (withToken envelope token) (world s) = (Ok response, w1) ->
  result (request (upsHttp env cfg) envelope s) = Ok (data response)
  /\ trace (request (upsHttp env cfg) envelope s)
     = [AccessTokenCall; TransportCall (withToken envelope token)]
  /\ posts (final (request (upsHttp env cfg) envelope s)) = posts s
  /\ provider (final (request (upsHttp env cfg) envelope s)) = provider s
  /\ world (final (request (upsHttp env cfg) envelope s)) = w1.
Proof.
  intros Hc Hlt Ht.
  rewrite request_unfold, session_accessToken, (accessToken_hit _ _ Hc Hlt).
  rewrite session_transport. cbn [world provider posts]. rewrite Ht.
  unfold result, trace, final. cbn. rewrite app_nil_r. repeat split.
Qed.

(** X16.  When the carrier answers 401 to a request made with a cached
    token that is still valid by the clock, the executor's retry sends
    exactly one token request, and when that succeeds the retried call
    carries the new token, which is the one cached afterwards; the
    retried call's answer is the result. *)
Theorem unauthorized_answer_forces_token_request
        (s : Session W) (envelope : AxiosRequestConfig) (token text : string)
        (response401 reply : AxiosResponse) (parsed : TokenResponse)
        (retried : Result AxiosResponse) (w1 w2 w3 : W) :
  cachedToken (provider s) = Some token ->
  (inject_Z (Date_now env (world s)) < expiresAt (provider s))%Q ->
  upsTransport (withToken envelope token) (world s)
    = (Throw (AxiosError text (Some response401)), w1) ->
  status response401 = 401 ->
  tokenReply env (provider s) w1 = (Ok reply, w2) ->
  TokenResponseSchema (runtime env) (Some (data reply)) = Some parsed ->
  upsTransport (withToken envelope (access_token parsed)) w2 = (retried, w3) ->
  posts (final (request (upsHttp env cfg) envelope s))
    = (posts s ++ [tokenPost env (UpsAuthClient.config (provider s))])%list
  /\ trace (request (upsHttp env cfg) envelope s)
     = [AccessTokenCall; TransportCall (withToken envelope token);
        ClearTokenCall; AccessTokenCall;
        TransportCall (withToken envelope (access_token parsed))]
  /\ cachedToken (provider (final (request (upsHttp env cfg) envelope s)))
     = Some (access_token parsed)
  /\ forall response,
       retried = Ok response ->
       result (request (upsHttp env cfg) envelope s) = Ok (data response).
Proof.
  intros Hc Hlt Ht H401 Hreply Hparsed Ht2.
  rewrite request_unfold, session_accessToken, (accessToken_hit _ _ Hc Hlt).
  rewrite session_transport. cbn [world provider posts]. rewrite Ht.
  rewrite (is401_axios _ _ H401).
  rewrite retry_unfold, session_clearToken, session_accessToken.
  cbn [world provider posts].
  rewrite accessToken_unfold.
  replace (cacheValid (mk (UpsAuthClient.config (provider s)) None 0) (Date_now env w1))
    with false by reflexivity.
  rewrite authenticate_unfold.
  replace (tokenReply env (mk (UpsAuthClient.config (provider s)) None 0) w1)
    with (tokenReply env (provider s) w1) by reflexivity.
  rewrite Hreply, Hparsed.
  rewrite session_transport. cbn [world provider posts UpsAuthClient.config].
  rewrite Ht2.
  unfold result, trace, final.
  destruct retried as [response|e]; cbn; rewrite !app_nil_r.
  - repeat split. intros r H. now injection H as <-.
  - repeat split. discriminate.
Qed.

End UpsHttpFacts.

Section UpsHttpExamples.

Import UpsAuthClient HttpClient Register StubCarrier.

Lemma cached_token_is_used_without_token_request_witness :
  result (request (upsHttp env config) Stub.getTest
            (session (mk StubUps.UPS_CONFIG (Some "tok_abc123") 5000)
                     (mkWorld 1000 [] [Ok (mkResponse 200 Stub.okTrue)])))
  = Ok Stub.okTrue
  /\ posts (final (request (upsHttp env config) Stub.getTest
              (session (mk StubUps.UPS_CONFIG (Some "tok_abc123") 5000)
                       (mkWorld 1000 [] [Ok (mkResponse 200 Stub.okTrue)]))))
     = [].
Proof.
  destruct (@cached_token_is_used_without_token_request World env config
              (session (mk StubUps.UPS_CONFIG (Some "tok_abc123") 5000)
                       (mkWorld 1000 [] [Ok (mkResponse 200 Stub.okTrue)]))
              Stub.getTest "tok_abc123" (mkResponse 200 Stub.okTrue)
              (mkWorld 1000 [] []) eq_refl eq_refl eq_refl)
    as (Hres & _ & Hposts & _).
  split; assumption.
Defined.

(** The cached token is rejected with 401; the refreshed token
    "tok_fresh" is sent with the retried call. *)
Lemma unauthorized_answer_forces_token_request_witness :
  posts (final (request (upsHttp env config) Stub.getTest
           (session (mk StubUps.UPS_CONFIG (Some "tok_stale") 5000)
                    (mkWorld 1000 [StubUps.oauthResponse "tok_fresh" "14400"]
                             [Throw (Stub.axiosError 401);
                              Ok (mkResponse 200 Stub.okTrue)]))))
  = [tokenPost env StubUps.UPS_CONFIG]
  /\ result (request (upsHttp env config) Stub.getTest
       (session (mk StubUps.UPS_CONFIG (Some "tok_stale") 5000)
                (mkWorld 1000 [StubUps.oauthResponse "tok_fresh" "14400"]
                         [Throw (Stub.axiosError 401);
                          Ok (mkResponse 200 Stub.okTrue)])))
     = Ok Stub.okTrue.
Proof.
  destruct (@unauthorized_answer_forces_token_request World env config
              (session (mk StubUps.UPS_CONFIG (Some "tok_stale") 5000)
                       (mkWorld 1000 [StubUps.oauthResponse "tok_fresh" "14400"]
                                [Throw (Stub.axiosError 401);
                                 Ok (mkResponse 200 Stub.okTrue)]))
              Stub.getTest "tok_stale" _ (mkResponse 401 JNull)
              (mkResponse 200 (StubUps.oauthBody "tok_fresh" "14400")) _
              (Ok (mkResponse 200 Stub.okTrue)) _ _ _
              eq_refl eq_refl eq_refl eq_refl eq_refl eq_refl eq_refl)
    as (Hposts & _ & _ & Hres).
  split; [exact Hposts|exact (Hres _ eq_refl)].
Defined.

End UpsHttpExamples.

(** ** OperationRegistry.ts and register.ts *)

Section OperationRegistryFacts.

Import OperationRegistry.

Context {Op : Type}.

(** X17.  [resolve] finds what [register] stored under the key, also
    when the key was registered before (the later registration wins
    silently), and registering one key changes no other key. *)
Theorem resolve_after_register (key : string) (operation : Op) (self : t Op) :
  resolve key (register key operation self) = Ok operation
  /\ (forall previous : Op,
        resolve key (register key operation (register key previous self))
        = Ok operation)
  /\ (forall other : string,
        other <> key ->
        resolve other (register key operation self) = resolve other self).
Proof.
  unfold resolve, register. repeat split.
  - now rewrite lookup_set_prop_same.
  - intros previous. now rewrite lookup_set_prop_same.
  - intros other Hne. now rewrite lookup_set_prop_other.
Qed.

(** X18.  [resolve] of a key that was never registered throws an
    [OperationNotFoundError] naming the key between double quotes; in
    particular every key is unknown to a new registry. *)
Theorem resolve_unregistered (key : string) (self : t Op) :
  lookup key self = None ->
  resolve key self = Throw (OperationNotFoundError key)
  /\ resolve key (@new Op) = Throw (OperationNotFoundError key)
  /\ kindOf (OperationNotFoundError key) = Some OperationNotFound
  /\ codeOf (OperationNotFoundError key) = Some "OPERATION_NOT_FOUND"
  /\ messageOf (OperationNotFoundError key)
     = ("No operation registered for " ++ dquote ++ key ++ dquote)%string.
Proof.
  intros H. unfold resolve. rewrite H. repeat split.
Qed.

End OperationRegistryFacts.

Section RegisterFacts.

Import OperationRegistry Register.

Context {W : Type} (env : UpsAuthClient.Env W).

(** X19.  After [registerUpsCarrier] the key "ups:rating" resolves to a
    rating operation for the "Shop" endpoint whose executor
    authenticates through the new provider; every other key resolves as
    before; and the provider starts with an empty cache, so its first
    [accessToken] sends a token request whatever the clock shows. *)
Theorem registerUpsCarrier_registers_rating
        (registry : t (UpsRatingOperation.t (UpsAuthClient.Session W)))
        (config : Config_) :
  resolve "ups:rating" (fst (registerUpsCarrier env registry config))
    = Ok (UpsRatingOperation.new (upsHttp env config) None)
  /\ UpsRatingOperation.requestOption
       (UpsRatingOperation.new (upsHttp env config) None)
     = UpsRatingOperation.Shop
  /\ (forall other : string,
        other <> "ups:rating" ->
        resolve other (fst (registerUpsCarrier env registry config))
        = resolve other registry)
  /\ (forall w : W,
        trace (UpsAuthClient.accessToken env
                 (snd (registerUpsCarrier env registry config), w))
        = [UpsAuthClient.tokenPost env (ups config)]).
Proof.
  unfold registerUpsCarrier. cbn [fst snd]. repeat split.
  - unfold resolve, register. now rewrite lookup_set_prop_same.
  - intros other Hne. unfold resolve, register. now rewrite lookup_set_prop_other.
  - intros w. rewrite accessToken_unfold.
    replace (UpsAuthClient.cacheValid _ _) with false by reflexivity.
    now rewrite authenticate_trace.
Qed.

End RegisterFacts.

Section RegistryExamples.

Import OperationRegistry.

(** "throws OperationNotFoundError for an unregistered key" *)
Lemma resolve_unregistered_witness :
  resolve "fedex:rating" (@new nat) = Throw (OperationNotFoundError "fedex:rating").
Proof.
  apply (@resolve_unregistered nat "fedex:rating" new). reflexivity.
Defined.

(** "resolves a registered operation and returns the same instance" *)
Lemma resolve_after_register_witness :
  resolve "fedex:rating" (register "ups:rating" 1%nat new)
  = resolve "fedex:rating" (@new nat).
Proof.
  apply (proj2 (proj2 (@resolve_after_register nat "ups:rating" 1%nat new))).
  discriminate.
Defined.

Lemma registerUpsCarrier_registers_rating_witness :
  resolve "fedex:rating"
          (fst (Register.registerUpsCarrier StubCarrier.env new StubCarrier.config))
  = resolve "fedex:rating" new.
Proof.
  destruct (registerUpsCarrier_registers_rating StubCarrier.env new StubCarrier.config)
    as (_ & _ & Hother & _).
  apply Hother. discriminate.
Defined.

End RegistryExamples.

(** ** core/types.ts, ups.types.ts and UpsMapper.ts *)

Section MapperFacts.

Import Types UpsTypes UpsRequestTypes UpsMapper.

Variable rt : JsRuntime.

(** The address lines the mapper sends: [line1], then [line2] unless it
    is absent or empty. *)
Definition addressLines (a : Types.Address) : list string :=
  match line2 a with
  | Some EmptyString | None => [line1 a]
  | Some l => [line1 a; l]
  end.

Definition upsAddressOf (a : Types.Address) : UpsAddress :=
  {| AddressLine := addressLines a;
     City := city a;
     StateProvinceCode := stateCode a;
     PostalCode := postalCode a;
     CountryCode := countryCode a |}.

Definition upsPackageOf (p : Types.Package) : UpsPackage :=
  {| PackagingType := {| Code := "02"; Description := Some "Package" |};
     Dimensions := {| dim_Unit := "IN";
                      Length := String_ rt (lengthIn p);
                      Width := String_ rt (widthIn p);
                      Height := String_ rt (heightIn p) |};
     PackageWeight := {| weight_Unit := "LBS"; Weight := String_ rt (weightLbs p) |} |}.

Lemma each_strings (l : list string) :
  Zod.each Zod.string_ (List.map JStr l) = Some l.
Proof.
  induction l as [|x rest IH]; [reflexivity|].
  cbn [List.map Zod.each]. cbn. now rewrite IH.
Qed.

Lemma UpsAddressSchema_toUpsAddress (a : Types.Address) :
  UpsAddressSchema (Some (toUpsAddress a)) = Some (upsAddressOf a).
Proof.
  unfold UpsAddressSchema, toUpsAddress, upsAddressOf, addressLines, truthy.
  destruct (line2 a) as [[|c l]|]; reflexivity.
Qed.

Lemma each_packages (ps : list Types.Package) :
  Zod.each UpsPackageSchema (List.map (toUpsPackage rt) ps)
  = Some (List.map upsPackageOf ps).
Proof.
  induction ps as [|p rest IH]; [reflexivity|].
  cbn [List.map Zod.each].
  replace (UpsPackageSchema (Some (toUpsPackage rt p)))
    with (Some (upsPackageOf p)) by reflexivity.
  cbn [Zod.andThen]. now rewrite IH.
Qed.

(** X20.  The wire request that [toUpsRequest] builds from any rate
    request is accepted by [UpsRateRequestSchema]: shipper and sender
    carry the origin, the recipient the destination, [NumOfPieces] is
    the decimal count of packages, and [Package] is the array of the
    packages in the order given.  An address has one line, or two when
    [line2] is present and not empty. *)
Theorem toUpsRequest_conforms_to_schema (input : RateRequest) :
  exists parsed : UpsRateRequest,
    UpsRateRequestSchema (Some (toUpsRequest rt input)) = Some parsed
    /\ Address (Shipper (Shipment parsed)) = upsAddressOf (origin input)
    /\ Address (ShipFrom (Shipment parsed)) = upsAddressOf (origin input)
    /\ Address (ShipTo (Shipment parsed)) = upsAddressOf (destination input)
    /\ NumOfPieces (Shipment parsed)
       = Some (string_of_Z (Z.of_nat (List.length (packages input))))
    /\ Package (Shipment parsed) = inr (List.map upsPackageOf (packages input)).
Proof.
  unfold UpsRateRequestSchema, toUpsRequest.
  cbn [Zod.object Zod.field get lookup String.eqb Ascii.eqb Bool.eqb
       Zod.andThen Zod.optional Zod.string_].
  unfold Zod.field. cbn [get lookup String.eqb Ascii.eqb Bool.eqb].
  rewrite !UpsAddressSchema_toUpsAddress.
  cbn [Zod.andThen]. unfold Zod.union.
  replace (UpsPackageSchema (Some (JArr (List.map (toUpsPackage rt) (packages input)))))
    with (@None UpsPackage) by reflexivity.
  unfold Zod.array. rewrite each_packages.
  eexists. repeat split.
Qed.

(** X21.  [fromUpsResponse] returns one quote per rated shipment, in the
    same order, each with carrier "UPS" and the shipment's service code;
    a shipment without a service description is named by its code; the
    days in transit of a guaranteed delivery win over the time-in-transit
    estimate; and a shipment with neither has no delivery estimate and
    no delivery date. *)
Theorem fromUpsResponse_quotes (shipments : list UpsRatedShipment) :
  List.length (fromUpsResponse rt shipments) = List.length shipments
  /\ forall (i : nat) (s : UpsRatedShipment),
       nth_error shipments i = Some s ->
       exists q : RateQuote,
         nth_error (fromUpsResponse rt shipments) i = Some q
         /\ carrier q = "UPS"
         /\ serviceCode q = Code (Service s)
         /\ (Description (Service s) = None -> serviceName q = Code (Service s))
         /\ (forall g d,
               GuaranteedDelivery s = Some g ->
               gd_BusinessDaysInTransit g = Some d ->
               estimatedDeliveryDays q = Some (parseInt rt d))
         /\ (GuaranteedDelivery s = None -> TimeInTransit s = None ->
             estimatedDeliveryDays q = None /\ guaranteedDeliveryDate q = None).
Proof.
  unfold fromUpsResponse. split; [apply List.length_map|].
  intros i s Hs. exists (toQuote rt s). split.
  - now rewrite nth_error_map, Hs.
  - unfold toQuote, daysInTransit, deliveryDate. cbn.
    split; [reflexivity|]. split; [reflexivity|]. split; [|split].
    + intros H. now rewrite H.
    + intros g d Hg Hd. rewrite Hg. cbn. rewrite Hd. reflexivity.
    + intros Hg Ht. rewrite Hg, Ht. split; reflexivity.
Qed.

End MapperFacts.

Section RateRequestSchemaFacts.

Import Types.

(** What the validation of a rate request establishes. *)
Definition validAddress (a : Address) : Prop :=
  (1 <= String.length (line1 a))%nat
  /\ (1 <= String.length (city a))%nat
  /\ String.length (stateCode a) = 2%nat
  /\ (1 <= String.length (postalCode a))%nat
  /\ String.length (countryCode a) = 2%nat.

Definition validPackage (p : Package) : Prop :=
  (0 < weightLbs p)%Q /\ (0 < lengthIn p)%Q /\ (0 < widthIn p)%Q /\ (0 < heightIn p)%Q.

Lemma min_inv (n : nat) (p : Zod.Schema string) (v : option Json) (s : string) :
  Zod.min n p v = Some s -> (n <= String.length s)%nat.
Proof.
  unfold Zod.min, Zod.andThen. destruct (p v) as [s0|]; [|discriminate].
  destruct (Nat.leb_spec n (String.length s0)) as [Hle|Hgt]; [|discriminate].
  intros Heq. now injection Heq as <-.
Qed.

Lemma length_inv (n : nat) (p : Zod.Schema string) (v : option Json) (s : string) :
  Zod.length n p v = Some s -> String.length s = n.
Proof.
  unfold Zod.length, Zod.andThen. destruct (p v) as [s0|]; [|discriminate].
  destruct (Nat.eqb_spec (String.length s0) n) as [Hlen|Hne]; [|discriminate].
  intros Heq. now injection Heq as <-.
Qed.

Lemma positive_inv (p : Zod.Schema Q) (v : option Json) (q : Q) :
  Zod.positive p v = Some q -> (0 < q)%Q.
Proof.
  unfold Zod.positive, Zod.andThen. destruct (p v) as [q0|]; [|discriminate].
  destruct (Qltb 0 q0) eqn:E; [|discriminate].
  intros H. injection H as <-. unfold Qltb in E.
  apply negb_true_iff in E. apply Qnot_le_lt. intros Hle.
  apply Qle_bool_iff in Hle. congruence.
Qed.

Lemma AddressSchema_valid (v : option Json) (a : Address) :
  AddressSchema v = Some a -> validAddress a.
Proof.
  unfold AddressSchema, Zod.object.
  destruct v as [[| | | | |props]|]; try discriminate.
  set (o := JObj props). unfold Zod.field.
  destruct (Zod.min 1 Zod.string_ (get "line1" o)) as [l1|] eqn:E1; [|discriminate].
  destruct (Zod.optional Zod.string_ (get "line2" o)) as [l2|]; [|discriminate].
  destruct (Zod.min 1 Zod.string_ (get "city" o)) as [ci|] eqn:E2; [|discriminate].
  destruct (Zod.length 2 Zod.string_ (get "stateCode" o)) as [sc|] eqn:E3;
    [|discriminate].
  destruct (Zod.min 1 Zod.string_ (get "postalCode" o)) as [pc|] eqn:E4;
    [|discriminate].
  destruct (Zod.length 2 Zod.string_ (get "countryCode" o)) as [cc|] eqn:E5;
    [|discriminate].
  cbn [Zod.andThen]. intros H. injection H as <-.
  unfold validAddress. cbn.
  apply min_inv in E1, E2, E4. apply length_inv in E3, E5. auto.
Qed.

Lemma PackageSchema_valid (v : option Json) (p : Package) :
  PackageSchema v = Some p -> validPackage p.
Proof.
  unfold PackageSchema, Zod.object.
  destruct v as [[| | | | |props]|]; try discriminate.
  set (o := JObj props). unfold Zod.field.
  destruct (Zod.positive Zod.number (get "weightLbs" o)) as [a1|] eqn:E1;
    [|discriminate].
  destruct (Zod.positive Zod.number (get "lengthIn" o)) as [a2|] eqn:E2;
    [|discriminate].
  destruct (Zod.positive Zod.number (get "widthIn" o)) as [a3|] eqn:E3;
    [|discriminate].
  destruct (Zod.positive Zod.number (get "heightIn" o)) as [a4|] eqn:E4;
    [|discriminate].
  cbn [Zod.andThen]. intros H. injection H as <-.
  unfold validPackage. cbn.
  apply positive_inv in E1, E2, E3, E4. auto.
Qed.

Lemma each_Forall (A : Type) (p : Zod.Schema A) (P : A -> Prop) :
  (forall v a, p v = Some a -> P a) ->
  forall items l, Zod.each p items = Some l ->
                  Forall P l /\ List.length l = List.length items.
Proof.
  intros Hp. induction items as [|x rest IH]; intros l H.
  - injection H as <-. split; [constructor|reflexivity].
  - cbn [Zod.each] in H. unfold Zod.andThen in H.
    destruct (p (Some x)) as [a|] eqn:Ea; [|discriminate].
    destruct (Zod.each p rest) as [r|] eqn:Er; [|discriminate].
    injection H as <-. destruct (IH r eq_refl) as [HF HL].
    split; [constructor; [exact (Hp _ _ Ea)|exact HF]|cbn; now rewrite HL].
Qed.

(** X22.  A request that [RateRequestSchema] accepts has at least one
    package, every dimension and weight of every package is positive,
    and in both addresses [line1], [city] and [postalCode] are not empty
    and [stateCode] and [countryCode] have exactly two characters; the
    packages are as many as the input's [packages] array has items. *)
Theorem RateRequestSchema_guarantees (input : Json) (request : RateRequest) :
  RateRequestSchema (Some input) = Some request ->
  (1 <= List.length (packages request))%nat
  /\ Forall validPackage (packages request)
  /\ validAddress (origin request)
  /\ validAddress (destination request)
  /\ exists items, get "packages" input = Some (JArr items)
                   /\ List.length items = List.length (packages request).
Proof.
  unfold RateRequestSchema, Zod.object.
  destruct input as [| | | | |props]; try discriminate.
  set (o := JObj props). unfold Zod.field.
  destruct (AddressSchema (get "origin" o)) as [og|] eqn:E1; [|discriminate].
  destruct (AddressSchema (get "destination" o)) as [de|] eqn:E2; [|discriminate].
  cbn [Zod.andThen].
  destruct (Zod.minItems 1 (Zod.array PackageSchema) (get "packages" o))
    as [pk|] eqn:E3; [|discriminate].
  cbn [Zod.andThen]. intros H. injection H as <-. cbn.
  unfold Zod.minItems, Zod.andThen, Zod.array in E3.
  destruct (get "packages" o) as [[| | | |items|]|] eqn:Eg; try discriminate.
  destruct (Zod.each PackageSchema items) as [l|] eqn:El; [|discriminate].
  destruct (Nat.leb_spec 1 (List.length l)) as [Hle|Hgt]; [|discriminate].
  injection E3 as <-.
  destruct (each_Forall PackageSchema validPackage PackageSchema_valid items El)
    as [HF HL].
  split; [assumption|]. split; [assumption|].
  split; [exact (AddressSchema_valid _ E1)|].
  split; [exact (AddressSchema_valid _ E2)|].
  exists items. split; [exact Eg|now symmetry].
Qed.

End RateRequestSchemaFacts.

Section UpsRatingOperationMore.

Import Types UpsTypes UpsMapper UpsRatingOperation HttpClient.

Context {S : Type} (rt : JsRuntime) (self : UpsRatingOperation.t S).

(** X23.  Every transport call that [execute] causes is a POST to
    [/api/rating/v2409/<requestOption>] whose body is the wire request of
    the validated input and whose Authorization header is a bearer
    token; and one [execute] causes at most two such calls. *)
Theorem execute_calls_rating_endpoint (input : Json) (s : S) :
  (count isTransport (trace (execute rt self input s)) <= 2)%nat
  /\ forall envelope : AxiosRequestConfig,
       In (TransportCall envelope) (trace (execute rt self input s)) ->
       method envelope = Some "POST"
       /\ url envelope
          = Some ("/api/rating/v2409/" ++ optionName (requestOption self))%string
       /\ (exists parsed,
             RateRequestSchema (Some input) = Some parsed
             /\ body envelope = Some (toUpsRequest rt parsed))
       /\ exists token,
            lookup "Authorization" (headers envelope) = Some ("Bearer " ++ token)%string.
Proof.
  assert (Htrace : trace (execute rt self input s)
                   = match RateRequestSchema (Some input) with
                     | Some parsed => trace (ratingCall rt self parsed s)
                     | None => []
                     end).
  { rewrite execute_unfold.
    destruct (RateRequestSchema (Some input)) as [parsed|]; [|reflexivity].
    destruct (ratingCall rt self parsed s) as [[[data|error] s1] calls];
      [|reflexivity].
    destruct (UpsRateResponseSchema (Some data)); reflexivity. }
  rewrite Htrace.
  destruct (RateRequestSchema (Some input)) as [parsed|];
    [|split; [cbn; lia|intros envelope []]].
  unfold ratingCall.
  destruct (request_trace_cases (http self)
              (ratingConfig self (toUpsRequest rt parsed)) s)
    as (token & fresh & H).
  cbv zeta in H.
  assert (Hone : forall envelope tok,
             envelope = withToken (ratingConfig self (toUpsRequest rt parsed)) tok ->
             method envelope = Some "POST"
             /\ url envelope
                = Some ("/api/rating/v2409/" ++ optionName (requestOption self))%string
             /\ (exists parsed0,
                   Some parsed = Some parsed0
                   /\ body envelope = Some (toUpsRequest rt parsed0))
             /\ exists token0,
                  lookup "Authorization" (headers envelope)
                  = Some ("Bearer " ++ token0)%string).
  { intros envelope tok ->. repeat split.
    - now exists parsed.
    - exists tok. apply lookup_set_prop_same. }
  simpl in H.
  repeat (destruct H as [H|H];
    [rewrite <- H; split;
       [unfold count; simpl; lia
       |intros envelope Hin; simpl in Hin;
        repeat (destruct Hin as [Hin|Hin];
                [try discriminate Hin; injection Hin as <-; eapply Hone; reflexivity|]);
        contradiction]|]).
  contradiction.
Qed.

(** X24.  For a validated request that the carrier answers with a
    well-formed rate response, [execute] returns one quote per rated
    shipment of the response, makes the executor's calls and no others,
    and ends in the executor's final state. *)
Theorem execute_returns_one_quote_per_shipment
        (input data : Json) (parsed : RateRequest) (response : UpsRateResponse)
        (s s1 : S) (calls : list Call) :
  RateRequestSchema (Some input) = Some parsed ->
  request (http self) (ratingConfig self (toUpsRequest rt parsed)) s
    = (Ok data, s1, calls) ->
  UpsRateResponseSchema (Some data) = Some response ->
  exists quotes,
    execute rt self input s = (Ok quotes, s1, calls)
    /\ List.length quotes = List.length (RatedShipment response)
    /\ Forall (fun q => carrier q = "UPS") quotes.
Proof.
  intros Hin Hreq Hresp.
  rewrite execute_unfold, Hin. unfold ratingCall. rewrite Hreq, Hresp.
  eexists. split; [reflexivity|]. unfold fromUpsResponse.
  split; [apply List.length_map|].
  apply Forall_map. apply Forall_forall. intros q _. reflexivity.
Qed.

End UpsRatingOperationMore.

Section RatingExamples.

Import Types UpsTypes UpsMapper UpsRatingOperation HttpClient Stub.

(** [upsRateResponse([{ serviceCode: "11", ... }, { serviceCode: "07", ... }])]
    of tests/carriers/ups/UpsRatingOperation.test.ts *)
Definition ratedShipment (serviceCode description amount : string) : Json :=
  JObj [("Service", JObj [("Code", JStr serviceCode); ("Description", JStr description)]);
        ("TotalCharges",
         JObj [("CurrencyCode", JStr "USD"); ("MonetaryValue", JStr amount)])].

Definition upsRateResponse : Json :=
  JObj [("RateResponse",
         JObj [("Response",
                JObj [("ResponseStatus",
                       JObj [("Code", JStr "1"); ("Description", JStr "Success")])]);
               ("RatedShipment",
                JArr [ratedShipment "11" "UPS Standard" "18";
                      ratedShipment "07" "UPS Express" "42"])])].

Definition guaranteedShipment : UpsRatedShipment :=
  {| Service := {| Code := "01"; Description := None |};
     TotalCharges := {| CurrencyCode := "USD"; MonetaryValue := "45" |};
     GuaranteedDelivery :=
       Some {| gd_BusinessDaysInTransit := Some "1";
               ScheduledDeliveryDate := Some "2026-02-20" |};
     TimeInTransit := None |}.

Lemma fromUpsResponse_quotes_witness :
  exists q : RateQuote,
    nth_error (fromUpsResponse StubUps.runtime [guaranteedShipment]) 0 = Some q
    /\ serviceName q = "01"
    /\ estimatedDeliveryDays q = Some (Some 1%Q).
Proof.
  destruct (proj2 (fromUpsResponse_quotes StubUps.runtime [guaranteedShipment])
                  0%nat guaranteedShipment eq_refl)
    as (q & Hq & _ & _ & Hname & Hdays & _).
  exists q. split; [exact Hq|]. split; [exact (Hname eq_refl)|].
  exact (Hdays _ "1" eq_refl eq_refl).
Defined.

Lemma RateRequestSchema_guarantees_witness :
  exists request : RateRequest,
    RateRequestSchema (Some VALID_REQUEST) = Some request
    /\ (1 <= List.length (packages request))%nat
    /\ validAddress (origin request).
Proof.
  destruct (RateRequestSchema (Some VALID_REQUEST)) as [request|] eqn:E;
    [|discriminate E].
  exists request. split; [reflexivity|].
  destruct (RateRequestSchema_guarantees VALID_REQUEST E) as (H1 & _ & H3 & _).
  split; assumption.
Defined.

(** "sends request to the Shop endpoint by default" *)
Lemma execute_calls_rating_endpoint_witness :
  exists envelope : AxiosRequestConfig,
    In (TransportCall envelope)
       (trace (execute StubUps.runtime operation VALID_REQUEST
                 (world ["tok"] [Ok (mkResponse 200 upsRateResponse)])))
    /\ method envelope = Some "POST"
    /\ url envelope = Some "/api/rating/v2409/Shop".
Proof.
  assert (Hin : exists envelope : AxiosRequestConfig,
             In (TransportCall envelope)
                (trace (execute StubUps.runtime operation VALID_REQUEST
                          (world ["tok"] [Ok (mkResponse 200 upsRateResponse)])))).
  { vm_compute. eexists. right. left. reflexivity. }
  destruct Hin as (envelope & Hin). exists envelope. split; [exact Hin|].
  destruct (proj2 (execute_calls_rating_endpoint StubUps.runtime operation VALID_REQUEST
                     (world ["tok"] [Ok (mkResponse 200 upsRateResponse)]))
                  envelope Hin) as (Hm & Hu & _).
  split; assumption.
Defined.

(** "returns rate quotes from a successful response" *)
Lemma execute_returns_one_quote_per_shipment_witness :
  exists quotes,
    result (execute StubUps.runtime operation VALID_REQUEST
              (world ["tok"] [Ok (mkResponse 200 upsRateResponse)]))
    = Ok quotes
    /\ List.length quotes = 2%nat.
Proof.
  destruct (RateRequestSchema (Some VALID_REQUEST)) as [parsed|] eqn:Hin;
    [|discriminate Hin].
  destruct (UpsRateResponseSchema (Some upsRateResponse)) as [response|] eqn:Hresp;
    [|discriminate Hresp].
  destruct (@execute_returns_one_quote_per_shipment World StubUps.runtime operation
              VALID_REQUEST upsRateResponse parsed response
              (world ["tok"] [Ok (mkResponse 200 upsRateResponse)])
              (mkWorld ["tok"] 1 0 [])
              [AccessTokenCall;
               TransportCall
                 (withToken (ratingConfig operation (toUpsRequest StubUps.runtime parsed))
                            "tok")]
              Hin eq_refl Hresp)
    as (quotes & Hexec & Hlen & _).
  exists quotes. split.
  - unfold result. now rewrite Hexec.
  - rewrite Hlen. vm_compute in Hresp. injection Hresp as <-. reflexivity.
Defined.

End RatingExamples.

(** ** The registered carrier end to end *)

Section CarrierFacts.

Import UpsAuthClient HttpClient Register.

Context {W : Type} (env : Env W) (cfg : Config_).

(** X25.  When the cached token is absent or expired, the executor first
    fetches a token with one token request, stores it with its expiry,
    and sends the request once with the new token. *)
Theorem expired_token_is_refreshed_before_the_request
        (s : Session W) (envelope : AxiosRequestConfig)
        (reply response : AxiosResponse) (parsed : TokenResponse) (w1 w2 : W) :
  cacheValid (provider s) (Date_now env (world s)) = false ->
  tokenReply env (provider s) (world s) = (Ok reply, w1) ->
  TokenResponseSchema (runtime env) (Some (data reply)) = Some parsed ->
  upsTransport env cfg (withToken envelope (access_token parsed)) w1
    = (Ok response, w2) ->
  result (request (upsHttp env cfg) envelope s) = Ok (data response)
  /\ trace (request (upsHttp env cfg) envelope s)
     = [AccessTokenCall; TransportCall (withToken envelope (access_token parsed))]
  /\ posts (final (request (upsHttp env cfg) envelope s))
     = (posts s ++ [tokenPost env (UpsAuthClient.config (provider s))])%list
  /\ cachedToken (provider (final (request (upsHttp env cfg) envelope s)))
     = Some (access_token parsed)
  /\ expiresAt (provider (final (request (upsHttp env cfg) envelope s)))
     = (inject_Z (Date_now env w1) + (expires_in parsed - 60) * 1000)%Q.
Proof.
  intros Hmiss Hreply Hparsed Ht.
  rewrite request_unfold, session_accessToken.
  rewrite accessToken_unfold, Hmiss, authenticate_unfold, Hreply, Hparsed.
  rewrite session_transport. cbn [world provider posts]. rewrite Ht.
  repeat split.
Qed.

(** X26.  Credentials that the token endpoint rejects with 401 or 403
    stop the request before any transport call: [request] throws the
    provider's [AuthenticationError] as it is, after exactly one token
    request. *)
Theorem rejected_credentials_stop_the_request
        (s : Session W) (envelope : AxiosRequestConfig) (text : string)
        (refusal : AxiosResponse) (w1 : W) :
  cacheValid (provider s) (Date_now env (world s)) = false ->
  tokenReply env (provider s) (world s)
    = (Throw (AxiosError text (Some refusal)), w1) ->
  status refusal = 401 \/ status refusal = 403 ->
  exists thrown,
    result (request (upsHttp env cfg) envelope s) = Throw thrown
    /\ kindOf thrown = Some Authentication
    /\ causeOf thrown = Some (AxiosError text (Some refusal))
    /\ trace (request (upsHttp env cfg) envelope s) = [AccessTokenCall]
    /\ posts (final (request (upsHttp env cfg) envelope s))
       = (posts s ++ [tokenPost env (UpsAuthClient.config (provider s))])%list
    /\ provider (final (request (upsHttp env cfg) envelope s)) = provider s.
Proof.
  intros Hmiss Hreply Hstatus.
  rewrite request_unfold, session_accessToken.
  rewrite accessToken_unfold, Hmiss, authenticate_unfold, Hreply.
  rewrite toStructuredError_response. cbv zeta.
  replace ((status refusal =? 401) || (status refusal =? 403)) with true
    by (destruct Hstatus as [H|H]; rewrite H; reflexivity).
  eexists. repeat split.
Qed.

End CarrierFacts.

Section CarrierExamples.

Import UpsAuthClient HttpClient Register StubCarrier.

Lemma expired_token_is_refreshed_before_the_request_witness :
  result (request (upsHttp env config) Stub.getTest
            (session (mk StubUps.UPS_CONFIG (Some "tok_old") 5000)
                     (mkWorld 6000 [StubUps.oauthResponse "tok_refreshed" "14400"]
                              [Ok (mkResponse 200 Stub.okTrue)])))
  = Ok Stub.okTrue
  /\ trace (request (upsHttp env config) Stub.getTest
              (session (mk StubUps.UPS_CONFIG (Some "tok_old") 5000)
                       (mkWorld 6000 [StubUps.oauthResponse "tok_refreshed" "14400"]
                                [Ok (mkResponse 200 Stub.okTrue)])))
     = [AccessTokenCall; TransportCall (withToken Stub.getTest "tok_refreshed")].
Proof.
  destruct (@expired_token_is_refreshed_before_the_request World env config
              (session (mk StubUps.UPS_CONFIG (Some "tok_old") 5000)
                       (mkWorld 6000 [StubUps.oauthResponse "tok_refreshed" "14400"]
                                [Ok (mkResponse 200 Stub.okTrue)]))
              Stub.getTest
              (mkResponse 200 (StubUps.oauthBody "tok_refreshed" "14400"))
              (mkResponse 200 Stub.okTrue) _ _ _
              eq_refl eq_refl eq_refl eq_refl)
    as (Hres & Htrace & _).
  split; assumption.
Defined.

Lemma rejected_credentials_stop_the_request_witness :
  exists thrown,
    result (request (upsHttp env config) Stub.getTest
              (session (UpsAuthClient.new StubUps.UPS_CONFIG)
                 (mkWorld 0 [Throw (StubUps.upsAxiosError 401 "10401" "ClientId is invalid")]
                          [])))
    = Throw thrown
    /\ kindOf thrown = Some Authentication
    /\ messageOf thrown = "ClientId is invalid".
Proof.
  destruct (@rejected_credentials_stop_the_request World env config
              (session (UpsAuthClient.new StubUps.UPS_CONFIG)
                 (mkWorld 0 [Throw (StubUps.upsAxiosError 401 "10401" "ClientId is invalid")]
                          []))
              Stub.getTest "Request failed"
              (mkResponse 401 (StubUps.upsErrorBody "10401" "ClientId is invalid"))
              (mkWorld 0 [] []) eq_refl eq_refl (or_introl eq_refl))
    as (thrown & Hres & Hkind & _).
  exists thrown. split; [exact Hres|]. split; [exact Hkind|].
  unfold result in Hres. cbn in Hres. injection Hres as <-. reflexivity.
Defined.

End CarrierExamples.

(** ** config.ts *)

Section ConfigFacts.

Import ConfigTs Register.

Variables (rt : JsRuntime) (isUrl : string -> bool)
          (processEnv : string -> option string).

(** X27.  [loadConfig] returns a configuration exactly when
    [UPS_CLIENT_ID] and [UPS_CLIENT_SECRET] are set and not empty and
    [UPS_BASE_URL] is set to a URL, and the configuration then holds
    these three values unchanged; in every other case it throws a
    [ZodError], which is none of the classes of errors.ts. *)
Theorem loadConfig_reads_the_environment :
  (forall id secret base,
      processEnv "UPS_CLIENT_ID" = Some id ->
      processEnv "UPS_CLIENT_SECRET" = Some secret ->
      processEnv "UPS_BASE_URL" = Some base ->
      (1 <= String.length id)%nat -> (1 <= String.length secret)%nat ->
      isUrl base = true ->
      loadConfig rt isUrl processEnv
      = Ok {| ups := {| Config.clientId := id; Config.clientSecret := secret;
                        Config.baseUrl := base |} |})
  /\
  (forall config,
      loadConfig rt isUrl processEnv = Ok config ->
      processEnv "UPS_CLIENT_ID" = Some (Config.clientId (ups config))
      /\ processEnv "UPS_CLIENT_SECRET" = Some (Config.clientSecret (ups config))
      /\ processEnv "UPS_BASE_URL" = Some (Config.baseUrl (ups config))
      /\ (1 <= String.length (Config.clientId (ups config)))%nat
      /\ (1 <= String.length (Config.clientSecret (ups config)))%nat
      /\ isUrl (Config.baseUrl (ups config)) = true)
  /\
  (forall thrown,
      loadConfig rt isUrl processEnv = Throw thrown ->
      thrown = ZodError (zodMessage rt "ConfigSchema" (envObject processEnv))
      /\ kindOf thrown = None).
Proof.
  unfold loadConfig, ConfigSchema, envObject, envProp, Zod.object, Zod.field,
    Zod.min, url_, Zod.string_, Zod.andThen.
  split; [|split].
  - intros id secret base H1 H2 H3 L1 L2 U. rewrite H1, H2, H3.
    destruct id as [|c1 id]; [cbn in L1; lia|].
    destruct secret as [|c2 secret]; [cbn in L2; lia|].
    cbn. now rewrite U.
  - intros config.
    destruct (processEnv "UPS_CLIENT_ID") as [[|c1 id]|];
      destruct (processEnv "UPS_CLIENT_SECRET") as [[|c2 secret]|];
      destruct (processEnv "UPS_BASE_URL") as [base|]; cbn; try discriminate.
    destruct (isUrl base) eqn:U; cbn; [|discriminate].
    intros H. injection H as <-. cbn. repeat split; try lia. exact U.
  - intros thrown.
    match goal with
    | |- context [match ?x with Some _ => _ | None => _ end = Throw _] =>
        destruct x; [discriminate|]
    end.
    intros H. injection H as <-. split; reflexivity.
Qed.

End ConfigFacts.

Section ConfigExamples.

Import ConfigTs Register.

Definition testEnv (name : string) : option string :=
  if String.eqb name "UPS_CLIENT_ID" then Some "test-client-id"
  else if String.eqb name "UPS_CLIENT_SECRET" then Some "test-client-secret"
  else if String.eqb name "UPS_BASE_URL" then Some "https://onlinetools.ups.com"
  else None.

Lemma loadConfig_reads_the_environment_witness :
  loadConfig StubUps.runtime (fun _ => true) testEnv
  = Ok {| ups := StubUps.UPS_CONFIG |}.
Proof.
  apply (proj1 (loadConfig_reads_the_environment StubUps.runtime (fun _ => true) testEnv)
               "test-client-id" "test-client-secret" "https://onlinetools.ups.com");
    try reflexivity; cbn; lia.
Defined.

End ConfigExamples.
